(** * yt_down: numbering, chunk splitting and duration triage

    A shallow embedding of the three scripts of the repository

      - [vocal_only.py]   (30-second chunks, no time log),
      - [vocal_only1.py]  (5-second chunks, CSV time log),
      - [remove_file.py]  (the duration sweep),

    together with the properties of their bookkeeping code.

    Conventions of the embedding.

    - Python [int] is [Z]; [//] and [%] are [Z.div] and [Z.modulo]
      (both round towards minus infinity and follow the sign of the divisor,
      as Python's do).
    - Python [str] is [string]; file names are taken over 8-bit characters,
      so [str.isdigit] is the test for ['0'..'9'] and [str.lower] maps
      ['A'..'Z'] to ['a'..'z'].
    - The file system is a finite map from path strings to nodes; two paths
      name the same file exactly when they are the same string.  Paths are
      built with the POSIX [os.path.join].
    - [print] appends a line to the [stdout] component of the world.
    - An exception is a value of [outcome]; [try]/[except]/[finally] are
      written out as matches on it. *)

From stdpp Require Import base numbers list strings gmap fin_maps pretty.
From Stdlib Require Import ZArith Lia Ascii QArith Qround.

Local Open Scope Z_scope.

(** ** Python strings *)

Module Str.

(** [s[:n]] and [s[n:]] for [0 <= n]. *)
Fixpoint take (n : nat) (s : string) : string :=
  match n, s with
  | S n', String a r => String a (take n' r)
  | _, _ => ""
  end.

Fixpoint drop (n : nat) (s : string) : string :=
  match n, s with
  | S n', String _ r => drop n' r
  | _, _ => s
  end.

(** [s.startswith(pre)], returning the rest of [s] on success. *)
Fixpoint strip_prefix (pre s : string) : option string :=
  match pre, s with
  | "", _ => Some s
  | String a p, String b r => if decide (a = b) then strip_prefix p r else None
  | String _ _, "" => None
  end.

Definition startswith (pre s : string) : bool :=
  bool_decide (is_Some (strip_prefix pre s)).

(** [s.endswith(suf)]: some tail of [s] is [suf]. *)
Fixpoint endswith (suf s : string) : bool :=
  bool_decide (s = suf) ||
  match s with
  | "" => false
  | String _ r => endswith suf r
  end.

(** [c in s]. *)
Fixpoint contains (c : ascii) (s : string) : bool :=
  match s with
  | "" => false
  | String a r => bool_decide (a = c) || contains c r
  end.

(** [s.rfind(c)] for a one-character [c]: the last index of [c], or [-1]. *)
Fixpoint rfind (c : ascii) (s : string) : Z :=
  match s with
  | "" => -1
  | String a r =>
      let i := rfind c r in
      if 0 <=? i then i + 1 else if decide (a = c) then 0 else -1
  end.

(** [c.isdigit()] on one character. *)
Definition isdigit_char (c : ascii) : bool :=
  bool_decide (is_Some (Ascii.is_nat c)).

(** [''.join(filter(str.isdigit, s))]. *)
Fixpoint filter_digits (s : string) : string :=
  match s with
  | "" => ""
  | String a r =>
      if isdigit_char a then String a (filter_digits r) else filter_digits r
  end.

Fixpoint all_digits (s : string) : bool :=
  match s with
  | "" => true
  | String a r => isdigit_char a && all_digits r
  end.

(** [s.isdigit()]: non-empty and every character a digit. *)
Definition isdigit (s : string) : bool :=
  match s with
  | "" => false
  | _ => all_digits s
  end.

(** [int(s)] on a string of digits, read left to right. *)
Fixpoint int_from (acc : Z) (s : string) : Z :=
  match s with
  | "" => acc
  | String a r =>
      int_from (10 * acc + Z.of_nat (default 0%nat (Ascii.is_nat a))) r
  end.

Definition int (s : string) : Z := int_from 0 s.

(** [c.lower()] and [s.lower()]. *)
Definition lower_char (c : ascii) : ascii :=
  let n := N_of_ascii c in
  if ((65 <=? n) && (n <=? 90))%N then ascii_of_N (n + 32) else c.

Fixpoint lower (s : string) : string :=
  match s with
  | "" => ""
  | String a r => String (lower_char a) (lower r)
  end.

(** The line feed that starts the driver's first message. *)
Definition newline : string := String "010"%char "".

(** [f"{n}"] for an [int]: decimal, with a leading minus sign. *)
Definition of_int (n : Z) : string := pretty n.

(** [f"{n:02}"]: zero-filled to a width of at least two. A negative
    number already takes two characters, so only one-digit naturals are
    filled. *)
Definition of_int_02 (n : Z) : string :=
  let s := of_int n in
  if (String.length s <? 2)%nat then "0" +:+ s else s.

End Str.

(** ** os.path *)

Module Path.

(** What [os.path.join(a, b)] puts in front of a relative [b]. *)
Definition dir_prefix (a : string) : string :=
  if bool_decide (a = "") || Str.endswith "/" a then a else a +:+ "/".

(** [os.path.join(a, b)] of [posixpath]. *)
Definition join (a b : string) : string :=
  if Str.startswith "/" b then b else dir_prefix a +:+ b.

(** [os.path.basename(p)]: what follows the last ['/']. *)
Definition basename (p : string) : string :=
  Str.drop (Z.to_nat (Str.rfind "/" p + 1)) p.

(** Is some character of [s] not a dot? *)
Fixpoint has_non_dot (s : string) : bool :=
  match s with
  | "" => false
  | String a r => negb (bool_decide (a = "."%char)) || has_non_dot r
  end.

(** [os.path.splitext(p)]: split at the last dot of the last component,
    unless that component consists of leading dots up to it. *)
Definition splitext (p : string) : string * string :=
  let sepIndex := Str.rfind "/" p in
  let dotIndex := Str.rfind "." p in
  if (sepIndex <? dotIndex) &&
     has_non_dot (Str.take (Z.to_nat (dotIndex - (sepIndex + 1)))
                           (Str.drop (Z.to_nat (sepIndex + 1)) p))
  then (Str.take (Z.to_nat dotIndex) p, Str.drop (Z.to_nat dotIndex) p)
  else (p, "").

End Path.

(** ** Exceptions and the world monad *)

Module Py.

(** A raised exception: [str(e)], and whether [except Exception] catches
    it ([KeyboardInterrupt] and [SystemExit] are not instances of
    [Exception]). *)
Record exn := Exn { is_Exception : bool; message : string }.

Inductive outcome (A : Type) :=
| Return (a : A)
| Raise (e : exn).
Global Arguments Return {A} a.
Global Arguments Raise {A} e.

(** A computation over a world [W]: effects made before an exception is
    raised stay in the world. *)
Definition M (W A : Type) : Type := W -> outcome A * W.

Definition ret {W A} (a : A) : M W A := fun w => (Return a, w).

Definition bind {W A B} (m : M W A) (k : A -> M W B) : M W B :=
  fun w =>
    match m w with
    | (Return a, w') => k a w'
    | (Raise e, w') => (Raise e, w')
    end.

Definition raise {W A} (msg : string) : M W A :=
  fun w => (Raise (Exn true msg), w).

Definition get {W} : M W W := fun w => (Return w, w).
Definition modify {W} (f : W -> W) : M W unit := fun w => (Return tt, f w).

(** [try: body  except Exception as e: handler(str(e))]. *)
Definition try_except {W A} (body : M W A) (handler : string -> M W A) : M W A :=
  fun w =>
    match body w with
    | (Return a, w') => (Return a, w')
    | (Raise e, w') =>
        if is_Exception e then handler (message e) w' else (Raise e, w')
    end.

(** [try: body  finally: final]. *)
Definition try_finally {W A} (body : M W A) (final : M W unit) : M W A :=
  fun w =>
    match body w with
    | (r, w') =>
        match final w' with
        | (Return _, w'') => (r, w'')
        | (Raise e, w'') => (Raise e, w'')
        end
    end.

(** [for x in l: acc = body(x, acc)]. *)
Fixpoint for_each {W A B} (l : list A) (acc : B) (body : A -> B -> M W B) : M W B :=
  match l with
  | [] => ret acc
  | x :: l' => bind (body x acc) (fun acc' => for_each l' acc' body)
  end.

(** [range(n)]. *)
Definition range (n : Z) : list Z := seqZ 0 n.

End Py.

Notation "x <- m ;; k" := (Py.bind m (fun x => k))
  (at level 100, m at next level, right associativity).

(** ** The file system *)

Module Fs.

Inductive node (C : Type) :=
| Dir
| File (c : C).
Global Arguments Dir {C}.
Global Arguments File {C} c.

Section Ops.
Context {C : Type}.
Implicit Types fs : gmap string (node C).

(** [os.path.exists], [os.path.isfile], [os.path.isdir]. *)
Definition exists_ fs (p : string) : bool :=
  bool_decide (is_Some (fs !! p)).

Definition isfile fs (p : string) : bool :=
  match fs !! p with Some (File _) => true | _ => false end.

Definition isdir fs (p : string) : bool :=
  match fs !! p with Some Dir => true | _ => false end.

(** [os.makedirs(p)] on a path that does not exist. *)
Definition makedirs fs (p : string) : gmap string (node C) :=
  <[p := Dir]> fs.

(** The name under which the key [k] is an entry of the directory [d]:
    [k] is [os.path.join(d, n)] for a non-empty [n] without ['/']. *)
Definition entry_of (d k : string) : option string :=
  match Str.strip_prefix (Path.dir_prefix d) k with
  | Some n =>
      if bool_decide (n <> "") && negb (Str.contains "/" n) then Some n
      else None
  | None => None
  end.

(** [os.listdir(d)], in the order the file system gives. *)
Definition listdir fs (d : string) : list string :=
  omap (entry_of d) (map_to_list fs).*1.

(** [fnmatch(name, 'vocal*.wav')]. *)
Definition fnmatch_vocal_wav (name : string) : bool :=
  match Str.strip_prefix "vocal" name with
  | Some rest => Str.endswith ".wav" rest
  | None => false
  end.

(** [glob.glob(os.path.join(d, 'vocal*.wav'))]: the matching entries
    of [d], each joined to [d]. *)
Definition glob_vocal_wav fs (d : string) : list string :=
  Path.join d <$> filter (fun name => fnmatch_vocal_wav name = true) (listdir fs d).

End Ops.

End Fs.

(** ** The numbering counter ([vocal_only.py] and [vocal_only1.py])

    The two scripts have the same [get_next_vocal_number], up to a
    [time.sleep(5)] in [vocal_only.py]. *)

Module Numbering.

(** [f'vocal{n}.wav'], the name all three scripts give to chunk [n]. *)
Definition vocal_filename (n : Z) : string :=
  "vocal" +:+ Str.of_int n +:+ ".wav".

(** The body of the loop over [existing_files]: the new [max_number]. *)
Definition scan_file (max_number : Z) (file : string) : Z :=
  let basename := Path.basename file in
  let name := (Path.splitext basename).1 in
  let number_part := Str.filter_digits name in
  if Str.isdigit number_part then
    let number := Str.int number_part in
    if max_number <? number then number else max_number
  else max_number.

Definition get_next_vocal_number {C} (output_dir : string)
    (fs : gmap string (Fs.node C)) : Z * gmap string (Fs.node C) :=
  if negb (Fs.exists_ fs output_dir) then
    (1, Fs.makedirs fs output_dir)
  else
    let existing_files := Fs.glob_vocal_wav fs output_dir in
    let max_number := fold_left scan_file existing_files 0 in
    (max_number + 1, fs).

End Numbering.

(** ** What the two pipeline scripts share *)

Module Vocal.
Export Numbering.

(** pydub addresses an [AudioSegment] by millisecond: [len(audio)] is its
    duration in milliseconds and [audio[a:b]] the milliseconds from [a]
    up to [b]. A segment is the list of its milliseconds, each an
    uninterpreted datum. *)
Definition AudioSegment : Type := list Z.

(** [audio[start:end]] of pydub, for [0 <= start]: both bounds are
    clamped to [len(audio)]. *)
Definition slice (audio : AudioSegment) (start_ms end_ms : Z) : AudioSegment :=
  let start_ms := Z.min start_ms (Z.of_nat (length audio)) in
  let end_ms := Z.min end_ms (Z.of_nat (length audio)) in
  take (Z.to_nat (end_ms - start_ms)) (drop (Z.to_nat start_ms) audio).

(** A file holds decoded audio, lines of text, or other data (the
    downloaded mp3). *)
Inductive content :=
| Wav (audio : AudioSegment)
| Text (lines : list string)
| Data.

Record world := World {
  fs : gmap string (Fs.node content);
  stdout : list string
}.

Definition set_fs (f : gmap string (Fs.node content) -> gmap string (Fs.node content))
    (w : world) : world :=
  {| fs := f (fs w); stdout := stdout w |}.

(** [print(line)]. *)
Definition print (line : string) : Py.M world unit :=
  Py.modify (fun w => {| fs := fs w; stdout := stdout w ++ [line] |}).

Definition exists_ (p : string) : Py.M world bool :=
  fun w => (Py.Return (Fs.exists_ (fs w) p), w).

Definition isfile (p : string) : Py.M world bool :=
  fun w => (Py.Return (Fs.isfile (fs w) p), w).

(** [os.makedirs(p, exist_ok=True)]: a file in the way is an error. *)
Definition makedirs_exist_ok (p : string) : Py.M world unit :=
  fun w =>
    match fs w !! p with
    | None => (Py.Return tt, set_fs (fun m => Fs.makedirs m p) w)
    | Some Fs.Dir => (Py.Return tt, w)
    | Some (Fs.File _) => (Py.Raise (Py.Exn true ("File exists: " +:+ p)), w)
    end.

(** [AudioSegment.from_wav(p)]: fails unless [p] is a file of audio. *)
Definition from_wav (p : string) : Py.M world AudioSegment :=
  fun w =>
    match fs w !! p with
    | Some (Fs.File (Wav audio)) => (Py.Return audio, w)
    | _ => (Py.Raise (Py.Exn true ("Could not decode " +:+ p)), w)
    end.

(** [chunk.export(p, format='wav')]. *)
Definition export (chunk : AudioSegment) (p : string) : Py.M world unit :=
  Py.modify (set_fs (fun m => <[p := Fs.File (Wav chunk)]> m)).

(** [a // b] and [a % b] on [int], with their [ZeroDivisionError]. *)
Definition floordiv (a b : Z) : Py.M world Z :=
  if b =? 0 then Py.raise "integer division or modulo by zero"
  else Py.ret (a / b).

Definition modulo (a b : Z) : Py.M world Z :=
  if b =? 0 then Py.raise "integer division or modulo by zero"
  else Py.ret (a mod b).

(** [shutil.rmtree(d)]: the directory and everything below it. *)
Definition rmtree (d : string) : Py.M world unit :=
  fun w =>
    match fs w !! d with
    | Some Fs.Dir =>
        (Py.Return tt,
         set_fs (filter (fun kv => kv.1 <> d /\
                   Str.strip_prefix (Path.dir_prefix d) kv.1 = None)) w)
    | _ => (Py.Raise (Py.Exn true ("Not a directory: " +:+ d)), w)
    end.

(** [clean_up(temp_dir)] (the same in both scripts). *)
Definition clean_up (temp_dir : string) : Py.M world unit :=
  ex <- exists_ temp_dir ;;
  if ex : bool then
    Py.try_except
      (_ <- rmtree temp_dir ;;
       print ("Cleaned up temporary files in '" +:+ temp_dir +:+ "'."))
      (fun e => print ("Failed to clean up temporary files: " +:+ e))
  else Py.ret tt.

(** [wait_for_file(filepath, timeout)]. Nothing else runs while the
    script polls, so the file is there at the first test or never. *)
Definition wait_for_file (filepath : string) (timeout : Z) : Py.M world unit :=
  ex <- exists_ filepath ;;
  if ex : bool then Py.ret tt
  else Py.raise ("File " +:+ filepath +:+ " not found within " +:+
                 Str.of_int timeout +:+ " seconds.").

Definition construct_vocals_path (input_audio output_dir : string) : string :=
  let base_filename := (Path.splitext (Path.basename input_audio)).1 in
  Path.join (Path.join output_dir base_filename) "vocals.wav".

Section Pipeline.
(** The two external capabilities: [ydl.download([url])] with the
    output template directory, and Spleeter's
    [Separator('spleeter:2stems').separate_to_file]. *)
Variable ydl_download : string -> string -> Py.M world unit.
Variable separate_to_file : string -> string -> Py.M world unit.

Definition download_audio (youtube_url output_dir : string) : Py.M world string :=
  _ <- makedirs_exist_ok output_dir ;;
  _ <- ydl_download youtube_url output_dir ;;
  let downloaded_mp3 := Path.join output_dir "downloaded_audio.mp3" in
  ex <- exists_ downloaded_mp3 ;;
  if ex : bool then Py.ret downloaded_mp3
  else Py.raise (downloaded_mp3 +:+ " not found after download.").

Definition extract_vocals (input_audio output_dir : string) : Py.M world string :=
  _ <- separate_to_file input_audio output_dir ;;
  let vocals_wav_path := construct_vocals_path input_audio output_dir in
  _ <- wait_for_file vocals_wav_path 30 ;;
  ex <- exists_ vocals_wav_path ;;
  if ex : bool then Py.ret vocals_wav_path
  else Py.raise ("Vocals WAV file not found at " +:+ vocals_wav_path +:+ ".").

(** The script's own splitter and its chunk length (30 or 5); the length
    is also what the script's message about splitting spells out. *)
Variable split_wav_file : string -> string -> Z -> Z -> Py.M world Z.
Variable chunk_length_sec : Z.

(** The [try] block of [process_youtube_video]; its value is the new
    [current_number]. *)
Definition process_body (temp_dir youtube_url split_output_dir : string)
    (current_number : Z) : Py.M world Z :=
  _ <- makedirs_exist_ok temp_dir ;;
  _ <- print (Str.newline +:+ "Processing URL: " +:+ youtube_url) ;;
  _ <- print "  Downloading audio from YouTube..." ;;
  downloaded_mp3 <- download_audio youtube_url (Path.join temp_dir "audio") ;;
  _ <- print "  Audio downloaded successfully." ;;
  _ <- print "  Extracting vocals..." ;;
  vocals_wav_path <- extract_vocals downloaded_mp3 (Path.join temp_dir "vocals") ;;
  _ <- print ("  Vocals extracted and saved to '" +:+ vocals_wav_path +:+ "'.") ;;
  _ <- print ("  Splitting the WAV file into " +:+ Str.of_int chunk_length_sec
              +:+ "-second segments...") ;;
  current_number <- split_wav_file vocals_wav_path split_output_dir
                      chunk_length_sec current_number ;;
  _ <- print "  Splitting completed successfully." ;;
  Py.ret current_number.

(** The line printed by the [except] clause. *)
Definition error_line (youtube_url error_message : string) : string :=
  "  An error occurred while processing " +:+ youtube_url +:+ ": "
  +:+ error_message.

Definition process_youtube_video (youtube_url split_output_dir : string)
    (current_number : Z) : Py.M world Z :=
  let temp_dir := "temp_processing" in
  Py.try_finally
    (Py.try_except
       (process_body temp_dir youtube_url split_output_dir current_number)
       (fun error_message =>
          _ <- print (error_line youtube_url error_message) ;;
          Py.ret current_number))
    (clean_up temp_dir).

End Pipeline.

End Vocal.

(** ** The driver over any three steps

    [process_youtube_video] is the same text in both scripts, but each
    calls its own [extract_vocals] and [split_wav_file]. Here it is over the
    three functions it calls; [Vocal.process_youtube_video] is this driver
    on the functions of [vocal_only1.py]. *)

Module Driver.
Import Vocal.

(** [get_next_vocal_number(output_dir)] as a step of [main]. *)
Definition get_next_vocal_number (output_dir : string) : Py.M world Z :=
fun w =>
  let r := Numbering.get_next_vocal_number output_dir (fs w) in
  (Py.Return r.1, set_fs (fun _ => r.2) w).

Section Steps.
Variable download_audio : string -> string -> Py.M world string.
Variable extract_vocals : string -> string -> Py.M world string.
Variable split_wav_file : string -> string -> Z -> Z -> Py.M world Z.
Variable chunk_length_sec : Z.

Definition process_body (temp_dir youtube_url split_output_dir : string)
    (current_number : Z) : Py.M world Z :=
  _ <- makedirs_exist_ok temp_dir ;;
  _ <- print (Str.newline +:+ "Processing URL: " +:+ youtube_url) ;;
  _ <- print "  Downloading audio from YouTube..." ;;
  downloaded_mp3 <- download_audio youtube_url (Path.join temp_dir "audio") ;;
  _ <- print "  Audio downloaded successfully." ;;
  _ <- print "  Extracting vocals..." ;;
  vocals_wav_path <- extract_vocals downloaded_mp3 (Path.join temp_dir "vocals") ;;
  _ <- print ("  Vocals extracted and saved to '" +:+ vocals_wav_path +:+ "'.") ;;
  _ <- print ("  Splitting the WAV file into " +:+ Str.of_int chunk_length_sec
              +:+ "-second segments...") ;;
  current_number <- split_wav_file vocals_wav_path split_output_dir
                      chunk_length_sec current_number ;;
  _ <- print "  Splitting completed successfully." ;;
  Py.ret current_number.

Definition process_youtube_video (youtube_url split_output_dir : string)
    (current_number : Z) : Py.M world Z :=
  let temp_dir := "temp_processing" in
  Py.try_finally
    (Py.try_except
       (process_body temp_dir youtube_url split_output_dir current_number)
       (fun error_message =>
          _ <- print (error_line youtube_url error_message) ;;
          Py.ret current_number))
    (clean_up temp_dir).

End Steps.

End Driver.

(** ** vocal_only1.py: five-second chunks with a time-range log *)

Module VocalOnly1.
Import Vocal.

(** [format_time(ms)]. *)
Definition format_time (ms : Z) : string :=
  let seconds := ms / 1000 in
  let minutes := seconds / 60 in
  let hours := minutes / 60 in
  let seconds := seconds mod 60 in
  let minutes := minutes mod 60 in
  Str.of_int_02 hours +:+ ":" +:+ Str.of_int_02 minutes +:+ ":"
    +:+ Str.of_int_02 seconds.

(** [open(p, 'a', newline='', encoding='utf-8')]: creates the file when
    it is missing and leaves its lines when it is there. Appending text
    to a file of audio or other data is outside the content model and is
    made an error here; no run of the scripts does it. *)
Definition open_append (p : string) : Py.M world unit :=
  fun w =>
    match fs w !! p with
    | None => (Py.Return tt, set_fs (fun m => <[p := Fs.File (Text [])]> m) w)
    | Some (Fs.File (Text _)) => (Py.Return tt, w)
    | Some Fs.Dir => (Py.Raise (Py.Exn true ("Is a directory: " +:+ p)), w)
    | Some (Fs.File _) => (Py.Raise (Py.Exn true ("Not a text file: " +:+ p)), w)
    end.

(** [csv.writer(f).writerow(fields)] on the file opened at [p]: one
    more line, the fields separated by commas (no field written by the
    script needs quoting). *)
Definition csv_line (fields : list string) : string :=
  String.concat "," fields.

Definition append_line (p line : string)
    (m : gmap string (Fs.node content)) : gmap string (Fs.node content) :=
  match m !! p with
  | Some (Fs.File (Text lines)) => <[p := Fs.File (Text (lines ++ [line]))]> m
  | _ => m
  end.

Definition writerow (p : string) (fields : list string) : Py.M world unit :=
  Py.modify (set_fs (append_line p (csv_line fields))).

(** The body of the loop over [range(num_chunks)]; its value is the
    incremented [current_number]. *)
Definition split_step (audio : AudioSegment) (output_dir csv_file_path : string)
    (chunk_length_sec total_length_ms : Z) (i current_number : Z) : Py.M world Z :=
  let start_ms := i * chunk_length_sec * 1000 in
  let end_ms := start_ms + chunk_length_sec * 1000 in
  let end_ms := Z.min end_ms total_length_ms in
  let chunk := slice audio start_ms end_ms in
  let start_time_str := format_time start_ms in
  let end_time_str := format_time end_ms in
  let output_filename := vocal_filename current_number in
  let output_path := Path.join output_dir output_filename in
  _ <- export chunk output_path ;;
  _ <- print ("Exported " +:+ output_filename +:+ " (from " +:+ start_time_str
              +:+ " to " +:+ end_time_str +:+ ")") ;;
  _ <- writerow csv_file_path [output_filename; start_time_str; end_time_str] ;;
  Py.ret (current_number + 1).

Definition split_wav_file (input_wav output_dir : string)
    (chunk_length_sec start_number : Z) : Py.M world Z :=
  audio <- from_wav input_wav ;;
  let total_length_ms := Z.of_nat (length audio) in
  q <- floordiv total_length_ms (chunk_length_sec * 1000) ;;
  r <- modulo total_length_ms (chunk_length_sec * 1000) ;;
  let num_chunks := q + (if 0 <? r then 1 else 0) in
  _ <- makedirs_exist_ok output_dir ;;
  let current_number := start_number in
  let csv_file_path := Path.join output_dir "time_ranges.csv" in
  file_exists <- isfile csv_file_path ;;
  _ <- open_append csv_file_path ;;
  _ <- (if negb file_exists
        then writerow csv_file_path ["Filename"; "Start Time"; "End Time"]
        else Py.ret tt) ;;
  current_number <- Py.for_each (Py.range num_chunks) current_number
                      (split_step audio output_dir csv_file_path
                                  chunk_length_sec total_length_ms) ;;
  Py.ret current_number.

Definition process_youtube_video ydl_download separate_to_file :=
  Vocal.process_youtube_video ydl_download separate_to_file split_wav_file 5.

(** [main]. [youtube_url] is [input("URL: ").strip()], the line typed at
    the prompt without the white space around it; the prompt itself is
    written to the standard output. *)
Definition main ydl_download separate_to_file (youtube_url : string)
    : Py.M world unit :=
  let split_output_dir := "split_vocals1" in
  _ <- print "Enter a YouTube video URL:" ;;
  _ <- print "URL: " ;;
  if bool_decide (youtube_url = "") then
    print "No URL was entered. Exiting the program."
  else
    current_number <- Driver.get_next_vocal_number split_output_dir ;;
    _ <- print ("Starting vocal numbering from " +:+ Str.of_int current_number
                +:+ ".") ;;
    current_number <- process_youtube_video ydl_download separate_to_file
                        youtube_url split_output_dir current_number ;;
    _ <- print (Str.newline +:+ "The video has been processed.") ;;
    _ <- print ("All split vocal files are saved in the '" +:+ split_output_dir
                +:+ "' directory.") ;;
    _ <- print ("Time ranges for each file are recorded in '"
                +:+ Path.join split_output_dir "time_ranges.csv" +:+ "'.") ;;
    print "CSV file includes the following columns: Filename, Start Time, End Time.".

End VocalOnly1.

(** ** vocal_only.py: thirty-second chunks, no log *)

Module VocalOnly.
Import Vocal.

(** [x // y] and [x % y] on [float]. The float [len(audio) / 1000] is
    taken as the rational it rounds, and so are the quotient and the
    remainder. *)
Definition float_floordiv (x y : Q) : Py.M world Q :=
  if Qeq_bool y 0 then Py.raise "float floor division by zero"
  else Py.ret (inject_Z (Qfloor (x / y))).

Definition float_modulo (x y : Q) : Py.M world Q :=
  if Qeq_bool y 0 then Py.raise "float modulo"
  else Py.ret (x - y * inject_Z (Qfloor (x / y)))%Q.

Definition Qpositive (x : Q) : bool := negb (Qle_bool x 0).

Definition split_step (audio : AudioSegment) (output_dir : string)
    (chunk_length_sec : Z) (i current_number : Z) : Py.M world Z :=
  let start_ms := i * chunk_length_sec * 1000 in
  let end_ms := start_ms + chunk_length_sec * 1000 in
  let chunk := slice audio start_ms end_ms in
  let output_filename := vocal_filename current_number in
  let output_path := Path.join output_dir output_filename in
  _ <- export chunk output_path ;;
  _ <- print ("Exported " +:+ output_filename) ;;
  Py.ret (current_number + 1).

Definition split_wav_file (input_wav output_dir : string)
    (chunk_length_sec start_number : Z) : Py.M world Z :=
  audio <- from_wav input_wav ;;
  let total_length_sec := (Z.of_nat (length audio) # 1000)%Q in
  q <- float_floordiv total_length_sec (inject_Z chunk_length_sec) ;;
  r <- float_modulo total_length_sec (inject_Z chunk_length_sec) ;;
  let num_chunks := Qfloor q + (if Qpositive r then 1 else 0) in
  _ <- makedirs_exist_ok output_dir ;;
  let current_number := start_number in
  current_number <- Py.for_each (Py.range num_chunks) current_number
                      (split_step audio output_dir chunk_length_sec) ;;
  Py.ret current_number.

(** [extract_vocals] of this script: it does not poll for the file, it
    tests the path once after the separation. *)
Definition extract_vocals (separate_to_file : string -> string -> Py.M world unit)
    (input_audio output_dir : string) : Py.M world string :=
  _ <- separate_to_file input_audio output_dir ;;
  let base_filename := (Path.splitext (Path.basename input_audio)).1 in
  let vocals_wav_path :=
    Path.join (Path.join output_dir base_filename) "vocals.wav" in
  ex <- exists_ vocals_wav_path ;;
  if ex : bool then Py.ret vocals_wav_path
  else Py.raise ("Vocals WAV file not found at " +:+ vocals_wav_path +:+ ".").

Definition process_youtube_video ydl_download separate_to_file :=
  Driver.process_youtube_video (Vocal.download_audio ydl_download)
    (extract_vocals separate_to_file) split_wav_file 30.

(** [main], with [youtube_url] the stripped line typed at the prompt. *)
Definition main ydl_download separate_to_file (youtube_url : string)
    : Py.M world unit :=
  let split_output_dir := "split_vocals" in
  _ <- print "Enter a YouTube video URL:" ;;
  _ <- print "URL: " ;;
  if bool_decide (youtube_url = "") then
    print "No URL was entered. Exiting the program."
  else
    current_number <- Driver.get_next_vocal_number split_output_dir ;;
    _ <- print ("Starting vocal numbering from " +:+ Str.of_int current_number
                +:+ ".") ;;
    current_number <- process_youtube_video ydl_download separate_to_file
                        youtube_url split_output_dir current_number ;;
    _ <- print (Str.newline +:+ "The video has been processed.") ;;
    print ("All split vocal files are saved in the '" +:+ split_output_dir
           +:+ "' directory.").

End VocalOnly.

(** ** remove_file.py: the duration sweep *)

Module RemoveFile.
Import Numbering.

(** What [wave.open(filepath, 'r')] makes of a file: a [wave.Error], some
    other exception, or a stream with its [getnframes()] and
    [getframerate()]. *)
Inductive wav :=
| BadWave (e : string)
| Unreadable (e : string)
| Wave (frames rate : N).

(** A printed line, by its kind and the values formatted into it (the
    duration is printed with [:.2f]). *)
Inductive line :=
| ErrorReading (filepath e : string)
| UnexpectedError (filepath e : string)
| Skipping (filepath : string)
| Deleted (filepath : string) (duration : Q)
| FailedToDelete (filepath e : string)
| MovedAndRenamed (filepath new_filepath : string) (duration : Q)
| FailedToMove (filepath e : string)
| NotADirectory (source_directory : string)
| OperationCompleted (min_duration : Q) (final_folder_path : string).

Record world := World {
  fs : gmap string (Fs.node wav);
  stdout : list line
}.

Definition set_fs (f : gmap string (Fs.node wav) -> gmap string (Fs.node wav))
    (w : world) : world :=
  {| fs := f (fs w); stdout := stdout w |}.

Definition print (l : line) : Py.M world unit :=
  Py.modify (fun w => {| fs := fs w; stdout := stdout w ++ [l] |}).

(** [wave.open(filepath, 'r')] followed by the two getters and the
    division [frames / float(rate)], with the exception each can raise;
    the [bool] tells a [wave.Error] from any other exception. The quotient
    is taken as the rational it rounds. *)
Definition read_duration (n : option (Fs.node wav)) : Q + bool * string :=
  match n with
  | Some (Fs.File (Wave frames 0)) => inr (false, "float division by zero")
  | Some (Fs.File (Wave frames (Npos rate))) => inl (Z.of_N frames # rate)%Q
  | Some (Fs.File (BadWave e)) => inr (true, e)
  | Some (Fs.File (Unreadable e)) => inr (false, e)
  | Some Fs.Dir => inr (false, "Is a directory")
  | None => inr (false, "No such file or directory")
  end.

(** [get_wav_duration(filepath)]: [None] after printing what went wrong. *)
Definition get_wav_duration (filepath : string) : Py.M world (option Q) :=
  w <- Py.get ;;
  match read_duration (fs w !! filepath) with
  | inl duration => Py.ret (Some duration)
  | inr (true, e) => _ <- print (ErrorReading filepath e) ;; Py.ret None
  | inr (false, e) => _ <- print (UnexpectedError filepath e) ;; Py.ret None
  end.

(** [os.remove(p)]. *)
Definition remove (p : string) : Py.M world unit :=
  fun w =>
    match fs w !! p with
    | Some (Fs.File _) => (Py.Return tt, set_fs (delete p) w)
    | Some Fs.Dir => (Py.Raise (Py.Exn true ("Is a directory: " +:+ p)), w)
    | None => (Py.Raise (Py.Exn true ("No such file or directory: " +:+ p)), w)
    end.

(** [shutil.move(src, dst)]: a rename; into [dst] when [dst] is a
    directory, unless the name is taken there. *)
Definition move (src dst : string) : Py.M world unit :=
  fun w =>
    match fs w !! src with
    | None => (Py.Raise (Py.Exn true ("No such file or directory: " +:+ src)), w)
    | Some n =>
        match fs w !! dst with
        | Some Fs.Dir =>
            let real_dst := Path.join dst (Path.basename src) in
            if Fs.exists_ (fs w) real_dst then
              (Py.Raise (Py.Exn true ("Destination path '" +:+ real_dst
                                      +:+ "' already exists")), w)
            else (Py.Return tt, set_fs (fun m => <[real_dst := n]> (delete src m)) w)
        | _ => (Py.Return tt, set_fs (fun m => <[dst := n]> (delete src m)) w)
        end
    end.

(** The [while os.path.exists(new_filepath)] loop: the first counter from
    [vocal_counter] on whose name is free. Each round meets one more
    existing path, so the loop ends within [size m] rounds, and
    [next_free_counter] runs it with that many and one to spare. *)
Fixpoint probe (fuel : nat) (m : gmap string (Fs.node wav))
    (final_folder_path : string) (vocal_counter : Z) : Z :=
  match fuel with
  | O => vocal_counter
  | S fuel' =>
      let new_filepath := Path.join final_folder_path (vocal_filename vocal_counter) in
      if Fs.exists_ m new_filepath
      then probe fuel' m final_folder_path (vocal_counter + 1)
      else vocal_counter
  end.

Definition next_free_counter (m : gmap string (Fs.node wav))
    (final_folder_path : string) (vocal_counter : Z) : Z :=
  probe (S (size m)) m final_folder_path vocal_counter.

Definition Qltb (x y : Q) : bool := negb (Qle_bool y x).

(** The body of [for file in files], for a [file] that ends in [.wav];
    its value is the new [vocal_counter]. *)
Definition process_file (min_duration : Q) (final_folder_path root file : string)
    (vocal_counter : Z) : Py.M world Z :=
  let filepath := Path.join root file in
  duration <- get_wav_duration filepath ;;
  match duration with
  | None => _ <- print (Skipping filepath) ;; Py.ret vocal_counter
  | Some duration =>
      if Qltb duration min_duration || Qltb min_duration duration then
        Py.try_except
          (_ <- remove filepath ;;
           _ <- print (Deleted filepath duration) ;;
           Py.ret vocal_counter)
          (fun e => _ <- print (FailedToDelete filepath e) ;; Py.ret vocal_counter)
      else
        w <- Py.get ;;
        let vocal_counter := next_free_counter (fs w) final_folder_path vocal_counter in
        let new_filename := vocal_filename vocal_counter in
        let new_filepath := Path.join final_folder_path new_filename in
        Py.try_except
          (_ <- move filepath new_filepath ;;
           _ <- print (MovedAndRenamed filepath new_filepath duration) ;;
           Py.ret (vocal_counter + 1))
          (fun e => _ <- print (FailedToMove filepath e) ;; Py.ret vocal_counter)
  end.

Section Sweep.
(** [os.path.abspath], which depends on the working directory. *)
Variable abspath : string -> string.

(** The body of [for root, dirs, files in os.walk(source_directory)]. *)
Definition process_root (min_duration : Q) (final_folder_path : string)
    (entry : string * list string) (vocal_counter : Z) : Py.M world Z :=
  let '(root, files) := entry in
  if bool_decide (abspath root = abspath final_folder_path) then
    Py.ret vocal_counter
  else
    Py.for_each files vocal_counter (fun file vocal_counter =>
      if Str.endswith ".wav" (Str.lower file)
      then process_file min_duration final_folder_path root file vocal_counter
      else Py.ret vocal_counter).

(** [process_wav_files]. [walk] is what [os.walk(source_directory)]
    yields: each directory with the names of its files. The value is
    the final [vocal_counter], which the script itself drops. *)
Definition process_wav_files (walk : list (string * list string))
    (source_directory : string) (min_duration : Q)
    (final_folder_path : string) : Py.M world Z :=
  w <- Py.get ;;
  if negb (Fs.isdir (fs w) source_directory) then
    _ <- print (NotADirectory source_directory) ;;
    (fun w => (Py.Raise (Py.Exn false "1"), w))
  else
    _ <- (fun w =>
            match fs w !! final_folder_path with
            | None => (Py.Return tt, set_fs (fun m => Fs.makedirs m final_folder_path) w)
            | Some Fs.Dir => (Py.Return tt, w)
            | Some (Fs.File _) =>
                (Py.Raise (Py.Exn true ("File exists: " +:+ final_folder_path)), w)
            end) ;;
    let vocal_counter := 1 in
    vocal_counter <- Py.for_each walk vocal_counter
                       (process_root min_duration final_folder_path) ;;
    _ <- print (OperationCompleted min_duration final_folder_path) ;;
    Py.ret vocal_counter.

End Sweep.

End RemoveFile.

(** ** Vocabulary of the statements about numbering *)

Module Spec.

(** [name] is an entry of the directory [d]. *)
Definition is_entry {C} (fs : gmap string (Fs.node C)) (d name : string) : Prop :=
name <> "" /\ Str.contains "/" name = false /\ is_Some (fs !! Path.join d name).

(** What the loop of [get_next_vocal_number] reads off a name without its
    extension: the number spelled by all its digits, if it has any. *)
Definition digits_value (name : string) : option Z :=
let number_part := Str.filter_digits name in
if Str.isdigit number_part then Some (Str.int number_part) else None.

Definition file_value (file : string) : option Z :=
digits_value (Path.splitext (Path.basename file)).1.

Definition max_list (l : list Z) : Z := foldr Z.max 0 l.

(** Following the specification: the chunk-filename pattern
    [vocal<digits>.wav] and the numeric suffix of a name of that form. *)
Definition chunk_number (name : string) : option Z :=
match Str.strip_prefix "vocal" name with
| Some rest =>
    if Str.endswith ".wav" rest then
      let digits := Str.take (String.length rest - 4) rest in
      if Str.isdigit digits then Some (Str.int digits) else None
    else None
| None => None
end.

(** Following the specification: [max(suffixes) + 1] over the entries that
    match the pattern, or 1 if none does. *)
Definition next_number (entries : list string) : Z :=
max_list (omap chunk_number entries) + 1.

End Spec.

(** ** Vocabulary of the statements about splitting *)

Module SplitSpec.
Import Vocal.

(** [ceil(a / b)]. *)
Definition ceil_div (a b : Z) : Z := - ((- a) / b).

(** Following the specification: chunk [i] of a track of [T] milliseconds
    cut every [L] seconds covers [i * L, min((i + 1) * L, T)], here in
    milliseconds. *)
Definition chunk_start (L i : Z) : Z := i * (L * 1000).

Definition chunk_end (L T i : Z) : Z := Z.min ((i + 1) * (L * 1000)) T.

(** The milliseconds of [audio] in that range. *)
Definition chunk (audio : AudioSegment) (L i : Z) : AudioSegment :=
let T := Z.of_nat (length audio) in
take (Z.to_nat (chunk_end L T i - chunk_start L i))
     (drop (Z.to_nat (chunk_start L i)) audio).

(** Where chunk [i] of a run that starts numbering at [start] is written. *)
Definition chunk_path (output_dir : string) (start i : Z) : string :=
Path.join output_dir (vocal_filename (start + i)).

Definition csv_path (output_dir : string) : string :=
Path.join output_dir "time_ranges.csv".

(** The line [vocal_only.py] prints for chunk [i]. *)
Definition exported (start i : Z) : string :=
"Exported " +:+ vocal_filename (start + i).

(** The line [vocal_only1.py] prints for chunk [i], and the fields of its
    log row. *)
Definition exported_range (L T start i : Z) : string :=
"Exported " +:+ vocal_filename (start + i) +:+ " (from "
  +:+ VocalOnly1.format_time (chunk_start L i) +:+ " to "
  +:+ VocalOnly1.format_time (chunk_end L T i) +:+ ")".

Definition log_row (L T start i : Z) : list string :=
[vocal_filename (start + i); VocalOnly1.format_time (chunk_start L i);
 VocalOnly1.format_time (chunk_end L T i)].

(** The lines of the log when the run starts: the header for a log that
    is created, the lines it holds otherwise. *)
Definition log_before (n : option (Fs.node content)) : list string :=
match n with
| Some (Fs.File (Text lines)) => lines
| _ => ["Filename,Start Time,End Time"]
end.

End SplitSpec.

(** ** Vocabulary of the statements about the sweep *)

Module SweepSpec.

(** The path the sweep gives to counter [k] in the final folder. *)
Definition vocal_path (final_folder_path : string) (k : Z) : string :=
Path.join final_folder_path (Numbering.vocal_filename k).

(** [p] is the path of a file that the walk hands to the sweep. *)
Definition visited (walk : list (string * list string)) (p : string) : Prop :=
exists root files file,
  (root, files) ∈ walk /\ file ∈ files /\ p = Path.join root file.

End SweepSpec.

(** ** Vocabulary of the statements about the pipeline driver *)

Module DriverSpec.
Import Vocal.

(** The world after [lines] have been printed. *)
Definition printed (lines : list string) (w : world) : world :=
{| fs := fs w; stdout := stdout w ++ lines |}.

(** The world that [clean_up(temp_dir)] leaves. *)
Definition cleaned (temp_dir : string) (w : world) : world :=
(clean_up temp_dir w).2.

(** [p] is in the tree of the directory [d]. *)
Definition below (d p : string) : Prop :=
p = d \/ is_Some (Str.strip_prefix (Path.dir_prefix d) p).

End DriverSpec.

(** ** Concrete file systems used in the examples *)

Module Examples.

(** [out/] holding [vocal1.wav] and [vocal3.wav]. *)
Definition fs_gap : gmap string (Fs.node unit) :=
<["out" := Fs.Dir]> (<["out/vocal1.wav" := Fs.File tt]>
  (<["out/vocal3.wav" := Fs.File tt]> ∅)).

(** [out/] holding [vocal1.wav] and [vocal1copy2.wav]. *)
Definition fs_copy : gmap string (Fs.node unit) :=
<["out" := Fs.Dir]> (<["out/vocal1.wav" := Fs.File tt]>
  (<["out/vocal1copy2.wav" := Fs.File tt]> ∅)).

(** [out/] holding only [vocal1copy2.wav]. *)
Definition fs_only_copy : gmap string (Fs.node unit) :=
<["out" := Fs.Dir]> (<["out/vocal1copy2.wav" := Fs.File tt]> ∅).

(** [out/] holding [vocal2.wav] and [vocal.wav]. *)
Definition fs_plain : gmap string (Fs.node unit) :=
<["out" := Fs.Dir]> (<["out/vocal2.wav" := Fs.File tt]>
  (<["out/vocal.wav" := Fs.File tt]> ∅)).

(** A track of 2.5 seconds, alone in the file system, and an empty one. *)
Definition track : Vocal.AudioSegment := replicate 2500 7.

Definition w_track : Vocal.world :=
{| Vocal.fs := {["in.wav" := Fs.File (Vocal.Wav track)]}; Vocal.stdout := [] |}.

Definition w_silent : Vocal.world :=
{| Vocal.fs := {["in.wav" := Fs.File (Vocal.Wav [])]}; Vocal.stdout := [] |}.

(** A source folder with one file of exactly 30 seconds, and a final
    folder that already holds [vocal3.wav]. *)
Definition w_sweep : RemoveFile.world :=
{| RemoveFile.fs :=
     <["src" := Fs.Dir]> (<["src/a.wav" := Fs.File (RemoveFile.Wave 30 1)]>
       (<["final" := Fs.Dir]>
         (<["final/vocal3.wav" := Fs.File (RemoveFile.Wave 9 1)]> ∅)));
   RemoveFile.stdout := [] |}.

(** A source folder with a corrupt file, a short one and one of 30
    seconds; the final folder holds [vocal1.wav]. *)
Definition w_mixed : RemoveFile.world :=
{| RemoveFile.fs :=
     <["src" := Fs.Dir]> (<["src/bad.wav" := Fs.File (RemoveFile.BadWave "not a WAVE file")]>
       (<["src/short.wav" := Fs.File (RemoveFile.Wave 2999 100)]>
         (<["src/full.wav" := Fs.File (RemoveFile.Wave 3000 100)]>
           (<["final" := Fs.Dir]>
             (<["final/vocal1.wav" := Fs.File (RemoveFile.Wave 30 1)]> ∅)))));
   RemoveFile.stdout := [] |}.

(** A download that fails because the video is gone, and a separator
    that is never reached. *)
Definition ydl_unavailable (url output_dir : string) : Py.M Vocal.world unit :=
fun w => (Py.Raise (Py.Exn true "ERROR: Video unavailable"), w).

Definition separate_nothing (input_audio output_dir : string) : Py.M Vocal.world unit :=
Py.ret tt.

Definition w_nothing : Vocal.world :=
{| Vocal.fs := ∅; Vocal.stdout := [] |}.

End Examples.

(** ** Vocabulary of the statements about whole runs *)

Module PipelineSpec.
Import Vocal.

(** [p] is strictly inside the tree of the directory [d]. *)
Definition inside (d p : string) : Prop :=
is_Some (Str.strip_prefix (Path.dir_prefix d) p).

(** What a run needs of [ydl.download]: called for [youtube_url] with the
    directory [output_dir], it returns, the mp3 is then in [output_dir],
    and it has written only inside the scratch directory. *)
Definition downloads (scratch : string)
    (ydl_download : string -> string -> Py.M world unit)
    (youtube_url output_dir : string) : Prop :=
forall w, exists w',
  ydl_download youtube_url output_dir w = (Py.Return tt, w') /\
  is_Some (fs w' !! Path.join output_dir "downloaded_audio.mp3") /\
  (forall p, ~ inside scratch p -> fs w' !! p = fs w !! p).

(** What a run needs of [separate_to_file]: it returns, the vocals of
    [input_audio] are then the track [audio] at the path Spleeter gives
    them, and it has written only inside the scratch directory. *)
Definition separates (scratch : string)
    (separate_to_file : string -> string -> Py.M world unit)
    (audio : AudioSegment) (input_audio output_dir : string) : Prop :=
forall w, exists w',
  separate_to_file input_audio output_dir w = (Py.Return tt, w') /\
  fs w' !! construct_vocals_path input_audio output_dir
    = Some (Fs.File (Wav audio)) /\
  (forall p, ~ inside scratch p -> fs w' !! p = fs w !! p).

End PipelineSpec.

(** ** Further worlds and tools used in the examples *)

Module Scenarios.

(** The track of 2.5 seconds next to an output directory that already
    holds [vocal2.wav]. *)
Definition w_numbered : Vocal.world :=
{| Vocal.fs :=
     <["in.wav" := Fs.File (Vocal.Wav Examples.track)]>
       (<["out" := Fs.Dir]>
         (<["out/vocal2.wav" := Fs.File (Vocal.Wav [1; 2; 3])]> ∅));
   Vocal.stdout := [] |}.

(** A download that leaves the mp3, and a separation that leaves the
    track as the vocals. *)
Definition ydl_fetch (url output_dir : string) : Py.M Vocal.world unit :=
Py.modify (Vocal.set_fs (fun m =>
  <[Path.join output_dir "downloaded_audio.mp3" := Fs.File Vocal.Data]> m)).

Definition separate_track (input_audio output_dir : string) : Py.M Vocal.world unit :=
Py.modify (Vocal.set_fs (fun m =>
  <[Vocal.construct_vocals_path input_audio output_dir
    := Fs.File (Vocal.Wav Examples.track)]> m)).

(** Steps that return at once: a download and a separation that only
    name their results, and a download interrupted from the keyboard. *)
Definition download_ready (url output_dir : string) : Py.M Vocal.world string :=
Py.ret (Path.join output_dir "downloaded_audio.mp3").

Definition extract_ready (input_audio output_dir : string) : Py.M Vocal.world string :=
Py.ret (Vocal.construct_vocals_path input_audio output_dir).

Definition download_interrupted (url output_dir : string) : Py.M Vocal.world string :=
fun w => (Py.Raise (Py.Exn false ""), w).

(** A splitter that is handed a number and returns the next one. *)
Definition split_one (input_wav output_dir : string) (chunk_length_sec start_number : Z)
    : Py.M Vocal.world Z :=
Py.ret (start_number + 1).

(** A file stands where the scratch directory goes. *)
Definition w_blocked : Vocal.world :=
{| Vocal.fs := {["temp_processing" := Fs.File Vocal.Data]}; Vocal.stdout := [] |}.

(** An output directory of [vocal_only1.py] that holds [vocal7.wav]. *)
Definition w_seven : Vocal.world :=
{| Vocal.fs :=
     <["split_vocals1" := Fs.Dir]>
       (<["split_vocals1/vocal7.wav" := Fs.File (Vocal.Wav [1; 2; 3])]> ∅);
   Vocal.stdout := [] |}.

(** The same for [vocal_only.py]. *)
Definition w_seven0 : Vocal.world :=
{| Vocal.fs :=
     <["split_vocals" := Fs.Dir]>
       (<["split_vocals/vocal7.wav" := Fs.File (Vocal.Wav [1; 2; 3])]> ∅);
   Vocal.stdout := [] |}.

End Scenarios.

(** * Properties *)

(** ** Strings and paths *)

Section StrFacts.
Implicit Types s p r x y suf pre : string.

Lemma str_app_nil_l s : "" +:+ s = s.
Proof. reflexivity. Qed.

Lemma str_app_cons a x y : String a x +:+ y = String a (x +:+ y).
Proof. reflexivity. Qed.

Local Ltac unapp := rewrite ?str_app_cons, ?str_app_nil_l in *; simpl in *.

Lemma str_app_nil_r s : s +:+ "" = s.
Proof. induction s; unapp; congruence. Qed.

Lemma str_app_assoc x y z : (x +:+ y) +:+ z = x +:+ y +:+ z.
Proof. induction x; unapp; congruence. Qed.

Lemma str_length_app x y :
  String.length (x +:+ y) = (String.length x + String.length y)%nat.
Proof. induction x; unapp; congruence. Qed.

Lemma str_app_inv_tail x y z : x +:+ z = y +:+ z -> x = y.
Proof.
  revert y. induction x as [|a x IH]; intros [|b y] H; unapp; trivial.
  - apply (f_equal String.length) in H. simpl in H. rewrite str_length_app in H. lia.
  - apply (f_equal String.length) in H. simpl in H. rewrite str_length_app in H. lia.
  - injection H as -> H. f_equal. auto.
Qed.

Lemma str_take_app x y : Str.take (String.length x) (x +:+ y) = x.
Proof. induction x; unapp; [by destruct y | congruence]. Qed.

Lemma str_drop_app x y : Str.drop (String.length x) (x +:+ y) = y.
Proof. induction x; unapp; [by destruct y | congruence]. Qed.

Lemma strip_prefix_app pre r : Str.strip_prefix pre (pre +:+ r) = Some r.
Proof. induction pre; unapp; [done|]. by rewrite decide_True. Qed.

Lemma strip_prefix_Some pre s r :
  Str.strip_prefix pre s = Some r -> s = pre +:+ r.
Proof.
  revert s. induction pre as [|a pre IH]; intros [|b s] H; unapp;
    try congruence.
  destruct (decide (a = b)) as [->|]; [|done]. f_equal. auto.
Qed.


Lemma endswith_iff suf s :
  Str.endswith suf s = true <-> exists p, s = p +:+ suf.
Proof.
  induction s as [|a s IH]; simpl.
  - rewrite orb_false_r, bool_decide_eq_true. split.
    + intros <-. by exists "".
    + intros [[|] H]; unapp; [done | destruct suf; discriminate].
  - rewrite orb_true_iff, bool_decide_eq_true, IH. split.
    + intros [<- | [p ->]]; [by exists "" | by exists (String a p)].
    + intros [[|b p] H]; unapp; [by left|].
      injection H as -> ->. right. by exists p.
Qed.

Lemma contains_app c x y :
  Str.contains c (x +:+ y) = Str.contains c x || Str.contains c y.
Proof. induction x; unapp; [done|]. rewrite IHx. by rewrite orb_assoc. Qed.


Lemma rfind_absent c s : Str.contains c s = false -> Str.rfind c s = -1.
Proof.
  induction s as [|a s IH]; simpl; [done|].
  intros [Ha Hs]%orb_false_elim. rewrite IH by done. simpl.
  apply bool_decide_eq_false in Ha. by rewrite decide_False.
Qed.

Lemma rfind_app_absent c x y :
  Str.contains c y = false -> Str.rfind c (x +:+ y) = Str.rfind c x.
Proof.
  intros Hy. induction x as [|a x IH]; unapp; [by apply rfind_absent|].
  by rewrite IH.
Qed.

Lemma rfind_app_last c x y :
  Str.contains c y = false ->
  Str.rfind c (x +:+ String c y) = Z.of_nat (String.length x).
Proof.
  intros Hy. induction x as [|a x IH]; unapp.
  - rewrite rfind_absent by done. simpl. by rewrite decide_True.
  - rewrite IH. destruct (0 <=? _) eqn:E; [lia | apply Z.leb_gt in E; lia].
Qed.

Lemma filter_digits_app x y :
  Str.filter_digits (x +:+ y) = Str.filter_digits x +:+ Str.filter_digits y.
Proof.
  induction x; unapp; [done|]. destruct (Str.isdigit_char _); unapp; congruence.
Qed.


Lemma filter_digits_id s : Str.all_digits s = true -> Str.filter_digits s = s.
Proof.
  induction s; simpl; [done|]. intros [-> H]%andb_prop. f_equal. auto.
Qed.

Lemma int_from_ge acc s : 0 <= acc -> acc <= Str.int_from acc s.
Proof.
  revert acc. induction s as [|a s IH]; intros acc Hacc; simpl; [lia|].
  etrans; [|apply IH]; lia.
Qed.

Lemma int_nonneg s : 0 <= Str.int s.
Proof. unfold Str.int. by apply int_from_ge. Qed.

End StrFacts.

Section PathFacts.
Implicit Types d n mid : string.

Lemma dir_prefix_cases d :
  Path.dir_prefix d = "" \/ exists q, Path.dir_prefix d = q +:+ "/".
Proof.
  unfold Path.dir_prefix.
  destruct (bool_decide (d = "")) eqn:E; simpl.
  - left. by apply bool_decide_eq_true in E.
  - destruct (Str.endswith "/" d) eqn:E'; [|right; by exists d].
    right. by apply endswith_iff in E'.
Qed.

Lemma dir_prefix_length d :
  (String.length d <= String.length (Path.dir_prefix d))%nat.
Proof.
  unfold Path.dir_prefix. destruct (_ || _); [lia|]. rewrite str_length_app. lia.
Qed.

Lemma join_relative d n :
  Str.startswith "/" n = false -> Path.join d n = Path.dir_prefix d +:+ n.
Proof. unfold Path.join. by intros ->. Qed.

Lemma startswith_no_slash n : Str.contains "/" n = false -> Str.startswith "/" n = false.
Proof.
  destruct n as [|a n]; [done|]. simpl. intros [Ha _]%orb_false_elim.
  apply bool_decide_eq_false in Ha. unfold Str.startswith. simpl.
  rewrite decide_False by done. apply bool_decide_eq_false. by intros [? ?].
Qed.

Lemma join_entry d n :
  Str.contains "/" n = false -> Path.join d n = Path.dir_prefix d +:+ n.
Proof. intros. by apply join_relative, startswith_no_slash. Qed.

Lemma join_inj d n1 n2 :
  Str.startswith "/" n1 = false -> Str.startswith "/" n2 = false ->
  Path.join d n1 = Path.join d n2 -> n1 = n2.
Proof.
  intros H1 H2. rewrite !join_relative by done. apply (inj (String.app _)).
Qed.

Lemma join_neq_dir d n :
  Str.startswith "/" n = false -> n <> "" -> Path.join d n <> d.
Proof.
  intros H Hn E. rewrite join_relative in E by done.
  apply (f_equal String.length) in E. rewrite str_length_app in E.
  pose proof (dir_prefix_length d). destruct n; [done|]. simpl in E. lia.
Qed.

Lemma basename_join d n :
  Str.contains "/" n = false -> Path.basename (Path.join d n) = n.
Proof.
  intros Hn. rewrite join_entry by done. unfold Path.basename.
  rewrite rfind_app_absent by done.
  destruct (dir_prefix_cases d) as [-> | [q ->]].
  - simpl. by rewrite str_app_nil_l.
  - rewrite (rfind_app_last _ q "") by done.
    replace (Z.to_nat (Z.of_nat (String.length q) + 1))
      with (String.length (q +:+ "/")) by (rewrite str_length_app; simpl; lia).
    apply str_drop_app.
Qed.

Lemma splitext_vocal mid :
  Str.contains "/" mid = false ->
  Path.splitext ("vocal" +:+ mid +:+ ".wav") = ("vocal" +:+ mid, ".wav").
Proof.
  intros Hmid. unfold Path.splitext.
  assert (Str.rfind "/" ("vocal" +:+ mid +:+ ".wav") = -1) as ->.
  { apply rfind_absent. rewrite !contains_app, Hmid. done. }
  assert (Str.rfind "." ("vocal" +:+ mid +:+ ".wav")
          = Z.of_nat (String.length ("vocal" +:+ mid))) as ->.
  { rewrite <-str_app_assoc. by apply rfind_app_last. }
  rewrite <-str_app_assoc at 2 3. rewrite Z.sub_0_r, Nat2Z.id.
  rewrite str_take_app, str_drop_app.
  replace (-1 <? _) with true by (symmetry; apply Z.ltb_lt; lia).
  change (Z.to_nat (-1 + 1)) with 0%nat.
  by rewrite !str_app_cons.
Qed.

Lemma file_value_vocal d mid :
  Str.contains "/" mid = false ->
  Spec.file_value (Path.join d ("vocal" +:+ mid +:+ ".wav")) = Spec.digits_value mid.
Proof.
  intros Hmid. unfold Spec.file_value.
  rewrite basename_join by (rewrite !contains_app, Hmid; done).
  rewrite splitext_vocal by done. simpl. unfold Spec.digits_value.
  by rewrite filter_digits_app.
Qed.

End PathFacts.

(** ** The numbering counter *)

Section NumberingFacts.
Context {C : Type}.
Implicit Types fs : gmap string (Fs.node C).
Implicit Types d n mid file : string.


Lemma digits_value_digits digits :
  Str.isdigit digits = true -> Spec.digits_value digits = Some (Str.int digits).
Proof.
  intros H. unfold Spec.digits_value.
  assert (Str.all_digits digits = true) as Hall by (by destruct digits).
  rewrite (filter_digits_id _ Hall). by rewrite H.
Qed.

Lemma scan_file_value m file :
  Numbering.scan_file m file =
    match Spec.file_value file with Some v => Z.max m v | None => m end.
Proof.
  unfold Numbering.scan_file, Spec.file_value, Spec.digits_value.
  destruct (Str.isdigit _); [|done].
  destruct (m <? _) eqn:E; [apply Z.ltb_lt in E | apply Z.ltb_ge in E]; lia.
Qed.

Lemma max_list_nonneg l : 0 <= Spec.max_list l.
Proof. induction l; simpl; lia. Qed.

Lemma max_list_upper l v : v ∈ l -> v <= Spec.max_list l.
Proof. induction 1; simpl; lia. Qed.

Lemma max_list_attained l : Spec.max_list l = 0 \/ Spec.max_list l ∈ l.
Proof.
  induction l as [|a l [IH|IH]]; simpl; [by left|..].
  - destruct (Z.max_spec a (Spec.max_list l)) as [[? ->]|[? ->]].
    + by left.
    + right. left.
  - destruct (Z.max_spec a (Spec.max_list l)) as [[? ->]|[? ->]].
    + right. by right.
    + right. left.
Qed.

Lemma max_list_perm l1 l2 : l1 ≡ₚ l2 -> Spec.max_list l1 = Spec.max_list l2.
Proof. induction 1; simpl; lia. Qed.

Lemma fold_scan_file l m :
  0 <= m ->
  fold_left Numbering.scan_file l m = Z.max m (Spec.max_list (omap Spec.file_value l)).
Proof.
  revert m. induction l as [|file l IH]; intros m Hm; simpl.
  - pose proof (max_list_nonneg []). simpl in *. lia.
  - rewrite scan_file_value. destruct (Spec.file_value file) as [v|] eqn:E; simpl.
    + rewrite IH by lia. symmetry. apply Z.max_assoc.
    + by apply IH.
Qed.

Lemma entry_of_Some d k n :
  Fs.entry_of d k = Some n <->
  k = Path.join d n /\ n <> "" /\ Str.contains "/" n = false.
Proof.
  unfold Fs.entry_of. split.
  - destruct (Str.strip_prefix _ k) as [r|] eqn:E; [|done].
    apply strip_prefix_Some in E as ->.
    destruct (bool_decide (r <> "")) eqn:E1; [|done].
    destruct (Str.contains "/" r) eqn:E2; [done|]. simpl. intros [= ->].
    apply bool_decide_eq_true in E1. by rewrite join_entry.
  - intros (-> & Hn & Hs). rewrite join_entry by done.
    rewrite strip_prefix_app, Hs. by rewrite bool_decide_eq_true_2.
Qed.

Lemma elem_of_listdir fs d n : n ∈ Fs.listdir fs d <-> Spec.is_entry fs d n.
Proof.
  unfold Fs.listdir, Spec.is_entry. rewrite list_elem_of_omap. split.
  - intros (k & Hk & (-> & ? & ?)%entry_of_Some).
    apply list_elem_of_fmap in Hk as ([k' x] & -> & Hx).
    apply elem_of_map_to_list in Hx. simpl in *. eauto.
  - intros (? & ? & [x Hx]). exists (Path.join d n). split.
    + apply list_elem_of_fmap. exists (Path.join d n, x). split; [done|].
      by apply elem_of_map_to_list.
    + by apply entry_of_Some.
Qed.

Lemma fnmatch_vocal_wav_iff n :
  Fs.fnmatch_vocal_wav n = true <-> exists mid, n = "vocal" +:+ mid +:+ ".wav".
Proof.
  unfold Fs.fnmatch_vocal_wav. split.
  - destruct (Str.strip_prefix _ n) as [r|] eqn:E; [|done].
    apply strip_prefix_Some in E as ->. intros [mid ->]%endswith_iff. by exists mid.
  - intros [mid ->]. rewrite strip_prefix_app. apply endswith_iff. by exists mid.
Qed.

Lemma elem_of_glob_vocal_wav fs d file :
  file ∈ Fs.glob_vocal_wav fs d <->
  exists mid, file = Path.join d ("vocal" +:+ mid +:+ ".wav") /\
              Spec.is_entry fs d ("vocal" +:+ mid +:+ ".wav").
Proof.
  unfold Fs.glob_vocal_wav. rewrite list_elem_of_fmap. split.
  - intros (n & -> & Hn). apply list_elem_of_filter in Hn as [Hm Hn].
    apply fnmatch_vocal_wav_iff in Hm as [mid ->].
    exists mid. split; [done|]. by apply elem_of_listdir.
  - intros (mid & -> & He). eexists. split; [done|].
    apply list_elem_of_filter. split; [|by apply elem_of_listdir].
    apply fnmatch_vocal_wav_iff. by exists mid.
Qed.

Lemma is_entry_mid_no_slash fs d mid :
  Spec.is_entry fs d ("vocal" +:+ mid +:+ ".wav") -> Str.contains "/" mid = false.
Proof.
  intros (_ & H & _). rewrite !contains_app in H.
  by apply orb_false_elim in H as [_ [? _]%orb_false_elim].
Qed.

(** The scanned maximum bounds the value of every matching entry, and is
    the value of one of them unless it is 0. *)
Lemma scanned_max fs d :
  let m := fold_left Numbering.scan_file (Fs.glob_vocal_wav fs d) 0 in
  0 <= m /\
  (forall mid v, Spec.is_entry fs d ("vocal" +:+ mid +:+ ".wav") ->
                 Spec.digits_value mid = Some v -> v <= m) /\
  (m = 0 \/ exists mid, Spec.is_entry fs d ("vocal" +:+ mid +:+ ".wav") /\
                        Spec.digits_value mid = Some m).
Proof.
  intros m. subst m. rewrite fold_scan_file by lia.
  set (vals := omap Spec.file_value (Fs.glob_vocal_wav fs d)).
  pose proof (max_list_nonneg vals) as Hnn.
  rewrite Z.max_r by done. split; [done|]. split.
  - intros mid v He Hv. apply max_list_upper. apply list_elem_of_omap.
    exists (Path.join d ("vocal" +:+ mid +:+ ".wav")). split.
    + apply elem_of_glob_vocal_wav. eauto.
    + rewrite file_value_vocal; [done | by eapply is_entry_mid_no_slash].
  - destruct (max_list_attained vals) as [?|Hin]; [by left|]. right.
    apply list_elem_of_omap in Hin as (file & Hf & Hv).
    apply elem_of_glob_vocal_wav in Hf as (mid & -> & He).
    exists mid. split; [done|].
    rewrite file_value_vocal in Hv; [done | by eapply is_entry_mid_no_slash].
Qed.

Lemma listdir_delete fs d k x :
  fs !! k = Some x ->
  Fs.listdir fs d ≡ₚ option_list (Fs.entry_of d k) ++ Fs.listdir (delete k fs) d.
Proof.
  intros Hk. unfold Fs.listdir.
  rewrite <-(map_to_list_delete fs k x Hk). simpl.
  by destruct (Fs.entry_of d k).
Qed.

End NumberingFacts.

Section NumberingClaims.
Context {C : Type}.
Implicit Types fs : gmap string (Fs.node C).



End NumberingClaims.



(** The scenario of the specification: [vocal1.wav] and [vocal3.wav] give 4. *)
Example get_next_vocal_number_gap :
  (Numbering.get_next_vocal_number "out" Examples.fs_gap).1 = 4.
Proof. vm_compute. reflexivity. Qed.



(** ** Decimal rendering *)

Section DecimalFacts.
Implicit Types s d : string.

Lemma all_digits_app x y :
  Str.all_digits (x +:+ y) = Str.all_digits x && Str.all_digits y.
Proof.
  induction x as [|a x IH]; [done|]. rewrite str_app_cons. simpl.
  by rewrite IH, andb_assoc.
Qed.

Lemma int_from_app acc x y :
  Str.int_from acc (x +:+ y) = Str.int_from (Str.int_from acc x) y.
Proof.
  revert acc. induction x as [|a x IH]; intros acc; [done|].
  rewrite str_app_cons. simpl. apply IH.
Qed.

Lemma digit_char_small (r : N) :
  (r < 10)%N ->
  Str.isdigit_char (pretty_N_char r) = true /\
  Z.of_nat (default 0%nat (Ascii.is_nat (pretty_N_char r))) = Z.of_N r.
Proof.
  intros Hr.
  assert (r = 0 \/ r = 1 \/ r = 2 \/ r = 3 \/ r = 4 \/ r = 5 \/ r = 6 \/ r = 7
          \/ r = 8 \/ r = 9)%N as H by lia.
  repeat (destruct H as [->|H]; [done|]). by subst.
Qed.

(** The digits [pretty_N_go] puts in front of its accumulator. *)
Lemma pretty_N_go_digits (x : N) :
  forall s, exists d,
    pretty_N_go x s = d +:+ s /\
    Str.all_digits d = true /\
    (forall acc, Str.int_from acc d
                 = acc * 10 ^ Z.of_nat (String.length d) + Z.of_N x) /\
    (x = 0%N -> d = "") /\
    ((0 < x)%N -> (1 <= String.length d)%nat) /\
    ((x < 10)%N -> (String.length d <= 1)%nat) /\
    ((10 <= x)%N -> (2 <= String.length d)%nat) /\
    ((x < 100)%N -> (String.length d <= 2)%nat).
Proof.
  induction (N.lt_wf_0 x) as [x _ IH]. intros s.
  destruct (decide (0 < x)%N) as [Hx|Hx].
  - rewrite pretty_N_go_step by done.
    destruct (IH (x `div` 10)%N ltac:(by apply N.div_lt)
                 (String (pretty_N_char (x `mod` 10)) s))
      as (d & -> & Hall & Hint & H0 & H1 & H9 & H10 & H99).
    pose proof (N.mod_lt x 10 ltac:(done)) as Hr.
    destruct (digit_char_small _ Hr) as [Hc Hv].
    exists (d +:+ String (pretty_N_char (x `mod` 10)) "").
    split; [by rewrite str_app_assoc|].
    split; [rewrite all_digits_app, Hall; simpl; by rewrite Hc|].
    split.
    { intros acc. rewrite int_from_app, Hint. simpl. rewrite Hv.
      rewrite str_length_app. simpl. rewrite Nat2Z.inj_add, Z.pow_add_r by lia.
      pose proof (N.div_mod x 10 ltac:(done)) as Hdm.
      apply (f_equal Z.of_N) in Hdm.
      rewrite N2Z.inj_add, N2Z.inj_mul in Hdm. simpl in Hdm.
      change (10 ^ Z.of_nat 1) with 10. rewrite Hdm.
      generalize (10 ^ Z.of_nat (String.length d)) (Z.of_N (x `div` 10))
                 (Z.of_N (x `mod` 10)).
      intros; lia. }
    rewrite str_length_app. simpl.
    assert ((x `div` 10 = 0 <-> x < 10)%N) as Hsmall.
    { by apply N.div_small_iff. }
    assert ((x < 100 -> x `div` 10 < 10)%N) as Hmid.
    { intros H. apply N.Div0.div_lt_upper_bound. lia. }
    assert ((10 <= x -> 0 < x `div` 10)%N) as Hbig.
    { intros H. apply N.neq_0_lt_0. intros E. apply Hsmall in E. lia. }
    repeat split.
    + lia.
    + lia.
    + intros H. apply Hsmall in H. rewrite (H0 H). simpl. lia.
    + intros H. specialize (H1 (Hbig H)). lia.
    + intros H. specialize (H9 (Hmid H)). lia.
  - assert (x = 0%N) as -> by lia. exists "". rewrite pretty_N_go_0.
    repeat split; try done; try (intros; simpl; lia).
Qed.

(** The decimal string of a natural number: digits only, read back by
    [int], and of the expected length. *)
Lemma of_int_nonneg n :
  0 <= n ->
  Str.all_digits (Str.of_int n) = true /\
  Str.int (Str.of_int n) = n /\
  (1 <= String.length (Str.of_int n))%nat /\
  (n < 10 -> String.length (Str.of_int n) = 1%nat) /\
  (10 <= n -> (2 <= String.length (Str.of_int n))%nat) /\
  (n < 100 -> (String.length (Str.of_int n) <= 2)%nat).
Proof.
  intros Hn. destruct n as [|p|p];
    [repeat split; (done || (intros; cbv; lia))| |lia].
  unfold Str.of_int, pretty, pretty_Z, pretty, pretty_positive, pretty, pretty_N.
  rewrite decide_False by done.
  destruct (pretty_N_go_digits (N.pos p) "")
    as (d & -> & Hall & Hint & _ & H1 & H9 & H10 & H99).
  rewrite str_app_nil_r. specialize (H1 ltac:(lia)).
  split; [done|]. split; [unfold Str.int; rewrite Hint; simpl; lia|].
  split; [done|]. split; [|split].
  - intros H. specialize (H9 ltac:(lia)). lia.
  - intros H. apply H10. lia.
  - intros H. apply H99. lia.
Qed.

Lemma of_int_02_nonneg n :
  0 <= n ->
  Str.all_digits (Str.of_int_02 n) = true /\
  Str.int (Str.of_int_02 n) = n /\
  (2 <= String.length (Str.of_int_02 n))%nat /\
  (n < 100 -> String.length (Str.of_int_02 n) = 2%nat).
Proof.
  intros Hn. destruct (of_int_nonneg n Hn) as (Hall & Hint & H1 & H9 & H10 & H99).
  unfold Str.of_int_02.
  destruct (String.length (Str.of_int n) <? 2)%nat eqn:E.
  - apply Nat.ltb_lt in E. rewrite str_app_cons, str_app_nil_l. simpl.
    split; [done|]. split; [done|]. split; lia.
  - apply Nat.ltb_ge in E. split; [done|]. split; [done|]. split; [done|].
    intros H. specialize (H99 H). lia.
Qed.

Lemma format_time_fields ms :
  0 <= ms ->
  exists hh mm ss,
    VocalOnly1.format_time ms = hh +:+ ":" +:+ mm +:+ ":" +:+ ss /\
    Str.all_digits hh = true /\ Str.all_digits mm = true /\
    Str.all_digits ss = true /\
    (2 <= String.length hh)%nat /\ String.length mm = 2%nat /\
    String.length ss = 2%nat /\
    Str.int hh = ms / 3600000 /\
    Str.int mm = ms / 60000 mod 60 /\
    Str.int ss = ms / 1000 mod 60.
Proof.
  intros Hms. unfold VocalOnly1.format_time.
  assert (0 <= ms / 1000) as Hs by (apply Z.div_pos; lia).
  assert (0 <= ms / 1000 / 60) as Hm by (apply Z.div_pos; lia).
  assert (0 <= ms / 1000 / 60 / 60) as Hh by (apply Z.div_pos; lia).
  pose proof (Z.mod_pos_bound (ms / 1000) 60 ltac:(lia)) as Hsb.
  pose proof (Z.mod_pos_bound (ms / 1000 / 60) 60 ltac:(lia)) as Hmb.
  destruct (of_int_02_nonneg _ Hh) as (Ha1 & Hi1 & Hl1 & _).
  destruct (of_int_02_nonneg (ms / 1000 / 60 mod 60) ltac:(lia)) as (Ha2 & Hi2 & _ & Hl2).
  destruct (of_int_02_nonneg (ms / 1000 mod 60) ltac:(lia)) as (Ha3 & Hi3 & _ & Hl3).
  eexists _, _, _. split; [done|].
  repeat split; try done.
  - apply Hl2. lia.
  - apply Hl3. lia.
  - rewrite Hi1, !Z.div_div by lia. done.
  - rewrite Hi2, !Z.div_div by lia. done.
Qed.

End DecimalFacts.

(** ** Splitting *)

Section MonadFacts.
Context {W : Type}.

Lemma bind_run {A B} (m : Py.M W A) (k : A -> Py.M W B) w a w1 :
  m w = (Py.Return a, w1) -> Py.bind m k w = k a w1.
Proof. unfold Py.bind. by intros ->. Qed.



Lemma for_each_cons {A B} x (l : list A) (acc : B) (body : A -> B -> Py.M W B) w acc1 w1 :
  body x acc w = (Py.Return acc1, w1) ->
  Py.for_each (x :: l) acc body w = Py.for_each l acc1 body w1.
Proof. intros H. simpl. by rewrite (bind_run _ _ _ _ _ H). Qed.

End MonadFacts.

Section SplitArith.
Implicit Types T b n i : Z.

(** The count computed by the scripts is the ceiling of [T / b]. *)
Lemma num_chunks_ceil T b :
  0 < b -> T / b + (if 0 <? T mod b then 1 else 0) = SplitSpec.ceil_div T b.
Proof.
  intros Hb. unfold SplitSpec.ceil_div.
  pose proof (Z.div_mod T b ltac:(lia)) as HT.
  pose proof (Z.mod_pos_bound T b Hb) as Hr.
  destruct (0 <? T mod b) eqn:E; [apply Z.ltb_lt in E | apply Z.ltb_ge in E].
  - assert (- T = (- (T / b) - 1) * b + (b - T mod b)) as H by lia.
    rewrite H. rewrite Z.div_add_l by lia.
    rewrite (Z.div_small (b - T mod b)) by lia. lia.
  - assert (- T = (- (T / b)) * b) as H by lia.
    rewrite H, Z.div_mul by lia. lia.
Qed.

Lemma ceil_div_bounds T b :
  0 < b -> (SplitSpec.ceil_div T b - 1) * b < T <= SplitSpec.ceil_div T b * b.
Proof.
  intros Hb. unfold SplitSpec.ceil_div.
  pose proof (Z.div_mod (- T) b ltac:(lia)).
  pose proof (Z.mod_pos_bound (- T) b Hb). lia.
Qed.


Lemma ceil_div_pos T b : 0 < b -> 0 < T -> 0 < SplitSpec.ceil_div T b.
Proof. intros Hb HT. pose proof (ceil_div_bounds T b Hb). nia. Qed.

Lemma ceil_div_nonneg T b : 0 < b -> 0 <= T -> 0 <= SplitSpec.ceil_div T b.
Proof. intros Hb HT. pose proof (ceil_div_bounds T b Hb). nia. Qed.

End SplitArith.

Section ChunkFacts.
Import Vocal.
Implicit Types audio : AudioSegment.
Implicit Types L i n T : Z.

Lemma slice_clamp audio s e :
  slice audio s e = slice audio s (Z.min e (Z.of_nat (length audio))).
Proof. unfold slice. by rewrite <-Z.min_assoc, Z.min_id. Qed.

Lemma slice_chunk audio L i :
  0 <= SplitSpec.chunk_start L i ->
  slice audio (i * L * 1000)
        (Z.min (i * L * 1000 + L * 1000) (Z.of_nat (length audio)))
  = SplitSpec.chunk audio L i.
Proof.
  unfold slice, SplitSpec.chunk, SplitSpec.chunk_end, SplitSpec.chunk_start.
  intros H0. set (T := Z.of_nat (length audio)).
  rewrite <-Z.min_assoc, Z.min_id.
  replace (i * L * 1000) with (i * (L * 1000)) by lia.
  replace ((i + 1) * (L * 1000)) with (i * (L * 1000) + L * 1000) by lia.
  destruct (Z.le_gt_cases (i * (L * 1000)) T) as [Hle|Hgt].
  - by rewrite (Z.min_l (i * (L * 1000)) T) by done.
  - rewrite (Z.min_r (i * (L * 1000)) T) by lia.
    rewrite !(drop_ge audio) by lia. by rewrite !take_nil.
Qed.

Lemma chunk_length audio L i :
  0 < L -> 0 <= i -> SplitSpec.chunk_start L i <= Z.of_nat (length audio) ->
  Z.of_nat (length (SplitSpec.chunk audio L i))
  = SplitSpec.chunk_end L (Z.of_nat (length audio)) i - SplitSpec.chunk_start L i.
Proof.
  unfold SplitSpec.chunk, SplitSpec.chunk_end, SplitSpec.chunk_start.
  intros HL Hi Hs. rewrite length_take, length_drop. lia.
Qed.

Lemma chunks_prefix audio L (k : nat) :
  0 < L ->
  concat (SplitSpec.chunk audio L <$> seqZ 0 (Z.of_nat k))
  = take (Z.to_nat (Z.of_nat k * (L * 1000))) audio.
Proof.
  intros HL. induction k as [|k IH].
  - done.
  - rewrite seqZ_S, fmap_app, concat_app, IH. simpl. rewrite app_nil_r.
    unfold SplitSpec.chunk, SplitSpec.chunk_end, SplitSpec.chunk_start.
    rewrite Z.add_0_l.
    set (T := Z.of_nat (length audio)). set (b := L * 1000).
    destruct (Z.le_gt_cases (Z.of_nat k * b) T) as [Hle|Hgt].
    + rewrite take_take_drop.
      destruct (Z.le_gt_cases ((Z.of_nat k + 1) * b) T).
      * f_equal. lia.
      * rewrite !(take_ge audio); [done|lia..].
    + rewrite (drop_ge audio) by lia. rewrite take_nil, app_nil_r.
      rewrite !(take_ge audio); [done|lia..].
Qed.

Lemma chunks_concat audio L n :
  0 < L -> 0 <= n -> Z.of_nat (length audio) <= n * (L * 1000) ->
  concat (SplitSpec.chunk audio L <$> seqZ 0 n) = audio.
Proof.
  intros HL Hn HT. rewrite <-(Z2Nat.id n) by done.
  rewrite chunks_prefix by done. apply take_ge. lia.
Qed.

Lemma vocal_filename_inj : Inj (=) (=) Numbering.vocal_filename.
Proof.
  intros i j H. unfold Numbering.vocal_filename in H.
  apply (inj (String.app _)) in H.
  apply str_app_inv_tail in H. unfold Str.of_int in H. by apply (inj pretty).
Qed.

Lemma vocal_filename_relative i :
  Str.startswith "/" (Numbering.vocal_filename i) = false.
Proof. done. Qed.

Lemma chunk_path_inj d start i j :
  SplitSpec.chunk_path d start i = SplitSpec.chunk_path d start j -> i = j.
Proof.
  unfold SplitSpec.chunk_path. intros H.
  apply join_inj in H; [|apply vocal_filename_relative..].
  apply vocal_filename_inj in H. lia.
Qed.

Lemma chunk_path_not_csv d start i :
  SplitSpec.chunk_path d start i <> SplitSpec.csv_path d.
Proof.
  unfold SplitSpec.chunk_path, SplitSpec.csv_path. intros H.
  apply join_inj in H; [|done..]. discriminate.
Qed.

Lemma chunk_path_not_dir d start i : SplitSpec.chunk_path d start i <> d.
Proof. apply join_neq_dir; [apply vocal_filename_relative | discriminate]. Qed.

Lemma csv_path_not_dir d : SplitSpec.csv_path d <> d.
Proof. apply join_neq_dir; done. Qed.

Lemma NoDup_chunk_names start n :
  NoDup ((fun i => Numbering.vocal_filename (start + i)) <$> seqZ 0 n).
Proof.
  apply NoDup_fmap_2; [|apply NoDup_seqZ].
  intros i j H. apply vocal_filename_inj in H. lia.
Qed.

End ChunkFacts.

Section SplitLoops.
Import Vocal.
Implicit Types audio : AudioSegment.
Implicit Types w : world.

Lemma seqZ_to_nat m n : seqZ m n = seqZ m (Z.of_nat (Z.to_nat n)).
Proof. unfold seqZ. by rewrite Nat2Z.id. Qed.

Lemma seqZ_succ m (k : nat) :
  seqZ m (Z.of_nat (S k)) = m :: seqZ (m + 1) (Z.of_nat k).
Proof.
  rewrite seqZ_cons by lia. f_equal. f_equal; lia.
Qed.

Lemma append_line_lookup_ne p q line (m : gmap string (Fs.node content)) :
  q <> p -> VocalOnly1.append_line p line m !! q = m !! q.
Proof.
  intros Hne. unfold VocalOnly1.append_line.
  destruct (m !! p) as [[|[]]|]; try done. by rewrite lookup_insert_ne.
Qed.

Lemma append_line_lookup_eq p line old (m : gmap string (Fs.node content)) :
  m !! p = Some (Fs.File (Text old)) ->
  VocalOnly1.append_line p line m !! p = Some (Fs.File (Text (old ++ [line]))).
Proof.
  intros H. unfold VocalOnly1.append_line. rewrite H. apply lookup_insert_eq.
Qed.

Lemma code_chunk_start L i : i * L * 1000 = SplitSpec.chunk_start L i.
Proof. unfold SplitSpec.chunk_start. lia. Qed.

Lemma code_chunk_end L T i :
  Z.min (i * L * 1000 + L * 1000) T = SplitSpec.chunk_end L T i.
Proof. unfold SplitSpec.chunk_end. f_equal. lia. Qed.

Lemma split1_step_run audio d L T start i w :
  VocalOnly1.split_step audio d (SplitSpec.csv_path d) L T i (start + i) w
  = (Py.Return (start + i + 1),
     {| fs := VocalOnly1.append_line (SplitSpec.csv_path d)
                (VocalOnly1.csv_line (SplitSpec.log_row L T start i))
                (<[SplitSpec.chunk_path d start i :=
                     Fs.File (Wav (slice audio (SplitSpec.chunk_start L i)
                                         (SplitSpec.chunk_end L T i)))]> (fs w));
        stdout := stdout w ++ [SplitSpec.exported_range L T start i] |}).
Proof.
  unfold SplitSpec.log_row, SplitSpec.exported_range.
  rewrite <-code_chunk_end, <-code_chunk_start. reflexivity.
Qed.

Lemma split1_loop audio d L T start (k : nat) : forall a w old,
  fs w !! SplitSpec.csv_path d = Some (Fs.File (Text old)) ->
  exists w',
    Py.for_each (seqZ a (Z.of_nat k)) (start + a)
      (VocalOnly1.split_step audio d (SplitSpec.csv_path d) L T) w
      = (Py.Return (start + a + Z.of_nat k), w') /\
    stdout w' = stdout w ++ (SplitSpec.exported_range L T start <$> seqZ a (Z.of_nat k)) /\
    fs w' !! SplitSpec.csv_path d
      = Some (Fs.File (Text (old ++
          ((fun i => VocalOnly1.csv_line (SplitSpec.log_row L T start i))
             <$> seqZ a (Z.of_nat k))))) /\
    (forall i, a <= i < a + Z.of_nat k ->
       fs w' !! SplitSpec.chunk_path d start i
       = Some (Fs.File (Wav (slice audio (SplitSpec.chunk_start L i)
                                   (SplitSpec.chunk_end L T i))))) /\
    (forall p, p <> SplitSpec.csv_path d ->
       (forall i, a <= i < a + Z.of_nat k -> p <> SplitSpec.chunk_path d start i) ->
       fs w' !! p = fs w !! p).
Proof.
  induction k as [|k IH]; intros a w old Hcsv.
  - exists w. rewrite seqZ_nil by done. simpl. rewrite !app_nil_r.
    repeat split; [unfold Py.ret; f_equal; f_equal; lia | done | intros; lia].
  - rewrite seqZ_succ.
    rewrite (for_each_cons _ _ _ _ _ _ _ (split1_step_run audio d L T start a w)).
    set (w1 := {| fs := _; stdout := _ |}).
    assert (fs w1 !! SplitSpec.csv_path d
            = Some (Fs.File (Text (old ++
                [VocalOnly1.csv_line (SplitSpec.log_row L T start a)])))) as Hcsv1.
    { apply append_line_lookup_eq. rewrite lookup_insert_ne; [done|].
      apply chunk_path_not_csv. }
    replace (start + a + 1) with (start + (a + 1)) by lia.
    destruct (IH (a + 1) w1 _ Hcsv1) as (w' & Hrun & Hout & Hlog & Hchunk & Hother).
    exists w'. split; [rewrite Hrun; f_equal; f_equal; lia|].
    split; [rewrite Hout; simpl; by rewrite <-app_assoc|].
    split; [rewrite Hlog; simpl; by rewrite <-app_assoc|].
    split.
    + intros i Hi. destruct (decide (i = a)) as [->|Hne].
      * rewrite Hother; [| apply chunk_path_not_csv
                         | intros j Hj Heq; apply chunk_path_inj in Heq; lia].
        simpl. rewrite append_line_lookup_ne by apply chunk_path_not_csv.
        apply lookup_insert_eq.
      * apply Hchunk. lia.
    + intros p Hp Hq. rewrite Hother; [|done|intros j Hj; apply Hq; lia].
      simpl. rewrite append_line_lookup_ne by done.
      rewrite lookup_insert_ne; [done|]. intros Heq. apply (Hq a); [lia|done].
Qed.

Lemma split0_step_run audio d L start i w :
  VocalOnly.split_step audio d L i (start + i) w
  = (Py.Return (start + i + 1),
     {| fs := <[SplitSpec.chunk_path d start i :=
                  Fs.File (Wav (slice audio (i * L * 1000)
                                      (i * L * 1000 + L * 1000)))]> (fs w);
        stdout := stdout w ++ [SplitSpec.exported start i] |}).
Proof. reflexivity. Qed.

Lemma split0_loop audio d L start (k : nat) : forall a w,
  exists w',
    Py.for_each (seqZ a (Z.of_nat k)) (start + a)
      (VocalOnly.split_step audio d L) w
      = (Py.Return (start + a + Z.of_nat k), w') /\
    stdout w' = stdout w ++ (SplitSpec.exported start <$> seqZ a (Z.of_nat k)) /\
    (forall i, a <= i < a + Z.of_nat k ->
       fs w' !! SplitSpec.chunk_path d start i
       = Some (Fs.File (Wav (slice audio (SplitSpec.chunk_start L i)
               (SplitSpec.chunk_end L (Z.of_nat (length audio)) i))))) /\
    (forall p,
       (forall i, a <= i < a + Z.of_nat k -> p <> SplitSpec.chunk_path d start i) ->
       fs w' !! p = fs w !! p).
Proof.
  induction k as [|k IH]; intros a w.
  - exists w. rewrite seqZ_nil by done. simpl. rewrite !app_nil_r.
    repeat split; [unfold Py.ret; f_equal; f_equal; lia | intros; lia].
  - rewrite seqZ_succ.
    rewrite (for_each_cons _ _ _ _ _ _ _ (split0_step_run audio d L start a w)).
    set (w1 := {| fs := _; stdout := _ |}).
    replace (start + a + 1) with (start + (a + 1)) by lia.
    destruct (IH (a + 1) w1) as (w' & Hrun & Hout & Hchunk & Hother).
    exists w'. split; [rewrite Hrun; f_equal; f_equal; lia|].
    split; [rewrite Hout; simpl; by rewrite <-app_assoc|].
    split.
    + intros i Hi. destruct (decide (i = a)) as [->|Hne].
      * rewrite Hother; [|intros j Hj Heq; apply chunk_path_inj in Heq; lia].
        simpl. rewrite lookup_insert_eq.
        by rewrite slice_clamp, code_chunk_end, code_chunk_start.
      * apply Hchunk. lia.
    + intros p Hq. rewrite Hother; [|intros j Hj; apply Hq; lia].
      simpl. rewrite lookup_insert_ne; [done|]. intros Heq. apply (Hq a); [lia|done].
Qed.

End SplitLoops.

Section FloatFacts.

Lemma Qfloor_div_ms T L :
  L <> 0 -> Qfloor ((T # 1000) / inject_Z L) = T / (L * 1000).
Proof.
  intros HL. destruct L as [|p|p]; [done|..]; unfold Qdiv, Qinv, Qmult, Qfloor; simpl.
  - rewrite Z.mul_1_r. f_equal. lia.
  - rewrite <-(Z.div_opp_opp T) by lia. f_equal; lia.
Qed.

Lemma float_modulo_positive T L :
  L <> 0 ->
  VocalOnly.Qpositive ((T # 1000) - inject_Z L * inject_Z (Qfloor ((T # 1000) / inject_Z L)))
  = (0 <? T mod (L * 1000)).
Proof.
  intros HL. rewrite Qfloor_div_ms by done.
  unfold VocalOnly.Qpositive.
  pose proof (Z.div_mod T (L * 1000) ltac:(lia)) as HT.
  set (q := T / (L * 1000)) in *. set (r := T mod (L * 1000)) in *.
  destruct (0 <? r) eqn:E; [apply Z.ltb_lt in E | apply Z.ltb_ge in E].
  - apply negb_true_iff. apply not_true_is_false. intros H%Qle_bool_iff.
    unfold Qle, Qminus, Qplus, Qopp, Qmult, inject_Z in H. simpl in H. lia.
  - apply negb_false_iff. apply Qle_bool_iff.
    unfold Qle, Qminus, Qplus, Qopp, Qmult, inject_Z. simpl. lia.
Qed.

Lemma inject_Z_nonzero L : L <> 0 -> Qeq_bool (inject_Z L) 0 = false.
Proof. intros HL. by destruct L. Qed.

End FloatFacts.

Lemma open_log_run (w1 : Vocal.world) csv :
  Vocal.fs w1 !! csv = None \/
    (exists old, Vocal.fs w1 !! csv = Some (Fs.File (Vocal.Text old))) ->
  Py.bind (VocalOnly1.open_append csv)
    (fun _ => if negb (Fs.isfile (Vocal.fs w1) csv)
              then VocalOnly1.writerow csv ["Filename"; "Start Time"; "End Time"]
              else Py.ret tt) w1
  = (Py.Return tt,
     {| Vocal.fs := <[csv := Fs.File (Vocal.Text (SplitSpec.log_before (Vocal.fs w1 !! csv)))]>
                      (Vocal.fs w1);
        Vocal.stdout := Vocal.stdout w1 |}).
Proof.
  intros [Hnone|[old Hold]].
  - unfold Py.bind, VocalOnly1.open_append, Fs.isfile. rewrite Hnone. simpl.
    unfold VocalOnly1.writerow, Py.modify, Vocal.set_fs, VocalOnly1.append_line. simpl.
    rewrite lookup_insert_eq, insert_insert_eq. done.
  - unfold Py.bind, VocalOnly1.open_append, Fs.isfile. rewrite Hold. simpl.
    unfold Py.ret. rewrite insert_id by done. by destruct w1.
Qed.

Section SplitRun.
Import Vocal.
Variable w : world.
Variables input_wav output_dir : string.
Variable audio : AudioSegment.
Variables L start : Z.

(** The track decodes, the chunk length is not zero, no file stands where
    the output directory goes, and the log, if it is there, is text. *)
Hypothesis Hin : fs w !! input_wav = Some (Fs.File (Wav audio)).
Hypothesis HL : L <> 0.
Hypothesis Hdir : forall c, fs w !! output_dir <> Some (Fs.File c).
Hypothesis Hlog :
  fs w !! SplitSpec.csv_path output_dir = None \/
  exists old, fs w !! SplitSpec.csv_path output_dir = Some (Fs.File (Text old)).

Let T := Z.of_nat (length audio).
Let num_chunks := T / (L * 1000) + (if 0 <? T mod (L * 1000) then 1 else 0).

Lemma makedirs_run :
  exists w1,
    makedirs_exist_ok output_dir w = (Py.Return tt, w1) /\
    stdout w1 = stdout w /\
    fs w1 !! output_dir = Some Fs.Dir /\
    (forall p, p <> output_dir -> fs w1 !! p = fs w !! p).
Proof using Hdir.
  unfold makedirs_exist_ok.
  destruct (fs w !! output_dir) as [[|c]|] eqn:E.
  - exists w. eauto.
  - by destruct (Hdir c).
  - eexists. split; [done|]. simpl. split; [done|].
    unfold Fs.makedirs. rewrite lookup_insert_eq. split; [done|].
    intros p Hp. by rewrite lookup_insert_ne.
Qed.

Lemma num_chunks_nonpos : L < 0 -> num_chunks <= 0.
Proof.
  intros HLn. unfold num_chunks.
  assert (L * 1000 < 0) as Hb by lia.
  pose proof (Z.mod_neg_bound T (L * 1000) Hb).
  pose proof (Z.div_mod T (L * 1000) ltac:(lia)).
  replace (0 <? T mod (L * 1000)) with false by (symmetry; apply Z.ltb_ge; lia).
  assert (0 <= T) by (unfold T; lia). nia.
Qed.

Lemma chunk_start_nonneg i : 0 <= i < num_chunks -> 0 <= SplitSpec.chunk_start L i.
Proof.
  intros Hi. unfold SplitSpec.chunk_start.
  destruct (Z.lt_trichotomy L 0) as [Hn|[?|?]]; [|done|nia].
  pose proof (num_chunks_nonpos Hn). lia.
Qed.

Lemma split1_run :
  exists w',
    VocalOnly1.split_wav_file input_wav output_dir L start w
      = (Py.Return (start + Z.max 0 num_chunks), w') /\
    stdout w' = stdout w ++ (SplitSpec.exported_range L T start <$> seqZ 0 num_chunks) /\
    fs w' !! SplitSpec.csv_path output_dir
      = Some (Fs.File (Text (SplitSpec.log_before (fs w !! SplitSpec.csv_path output_dir) ++
          ((fun i => VocalOnly1.csv_line (SplitSpec.log_row L T start i))
             <$> seqZ 0 num_chunks)))) /\
    (forall i, 0 <= i < num_chunks ->
       fs w' !! SplitSpec.chunk_path output_dir start i
       = Some (Fs.File (Wav (SplitSpec.chunk audio L i)))) /\
    fs w' !! output_dir = Some Fs.Dir /\
    (forall p, p <> SplitSpec.csv_path output_dir -> p <> output_dir ->
       (forall i, 0 <= i < num_chunks -> p <> SplitSpec.chunk_path output_dir start i) ->
       fs w' !! p = fs w !! p).
Proof using Hin HL Hdir Hlog.
  destruct makedirs_run as (w1 & Hmk & Hout1 & Hd1 & Hfs1).
  pose proof (csv_path_not_dir output_dir) as Hcd.
  set (csv := SplitSpec.csv_path output_dir) in *.
  (* the world when the loop starts *)
  set (init := SplitSpec.log_before (fs w !! csv)).
  set (w2 := {| fs := <[csv := Fs.File (Text init)]> (fs w1); stdout := stdout w1 |}).
  assert (fs w2 !! csv = Some (Fs.File (Text init))) as Hcsv2 by apply lookup_insert_eq.
  destruct (split1_loop audio output_dir L T start (Z.to_nat num_chunks) 0 w2 init Hcsv2)
    as (w' & Hloop & Hout & Hlog' & Hchunk & Hother).
  rewrite <-!seqZ_to_nat in *. fold csv in Hloop, Hlog', Hother.
  exists w'. split; [|split; [|split; [|split; [|split]]]].
  - unfold VocalOnly1.split_wav_file.
    erewrite bind_run; [|unfold from_wav; by rewrite Hin].
    erewrite bind_run; [|unfold floordiv; rewrite (proj2 (Z.eqb_neq _ _)) by lia; done].
    erewrite bind_run; [|unfold modulo; rewrite (proj2 (Z.eqb_neq _ _)) by lia; done].
    erewrite bind_run; [|exact Hmk].
    erewrite bind_run; [|done].
    change (Path.join output_dir "time_ranges.csv") with csv.
    assert (Py.for_each (Py.range num_chunks) start
              (VocalOnly1.split_step audio output_dir csv L T) w2
            = (Py.Return (start + Z.max 0 num_chunks), w')) as Hloop'.
    { unfold Py.range. replace start with (start + 0) at 1 by lia.
      rewrite Hloop. f_equal. f_equal. lia. }
    assert (fs w1 !! csv = None \/
            (exists old, fs w1 !! csv = Some (Fs.File (Text old)))) as Hlog1
      by (by rewrite (Hfs1 csv Hcd)).
    pose proof (open_log_run w1 csv Hlog1) as Hopen.
    rewrite (Hfs1 csv Hcd) in Hopen. fold init in Hopen. fold w2 in Hopen.
    unfold Py.bind in Hopen |- *.
    destruct (VocalOnly1.open_append csv w1) as [[[]|e] w1a]; [|done].
    rewrite Hopen. fold T. fold num_chunks. by rewrite Hloop'.
  - by rewrite Hout, <-Hout1.
  - done.
  - intros i Hi. rewrite Hchunk by lia. unfold T.
    rewrite <-code_chunk_start, <-code_chunk_end, slice_chunk; [done|].
    by apply chunk_start_nonneg.
  - rewrite Hother; [|done|intros; apply not_eq_sym, chunk_path_not_dir].
    simpl. by rewrite lookup_insert_ne.
  - intros p Hp1 Hp2 Hp3. rewrite Hother; [|done|intros; apply Hp3; lia].
    simpl. rewrite lookup_insert_ne by done. by apply Hfs1.
Qed.

Lemma split0_run :
  exists w',
    VocalOnly.split_wav_file input_wav output_dir L start w
      = (Py.Return (start + Z.max 0 num_chunks), w') /\
    stdout w' = stdout w ++ (SplitSpec.exported start <$> seqZ 0 num_chunks) /\
    (forall i, 0 <= i < num_chunks ->
       fs w' !! SplitSpec.chunk_path output_dir start i
       = Some (Fs.File (Wav (SplitSpec.chunk audio L i)))) /\
    fs w' !! output_dir = Some Fs.Dir /\
    (forall p, p <> output_dir ->
       (forall i, 0 <= i < num_chunks -> p <> SplitSpec.chunk_path output_dir start i) ->
       fs w' !! p = fs w !! p).
Proof using Hin HL Hdir.
  destruct makedirs_run as (w1 & Hmk & Hout1 & Hd1 & Hfs1).
  destruct (split0_loop audio output_dir L start (Z.to_nat num_chunks) 0 w1)
    as (w' & Hloop & Hout & Hchunk & Hother).
  rewrite <-!seqZ_to_nat in *.
  exists w'. split; [|split; [|split; [|split]]].
  - unfold VocalOnly.split_wav_file.
    erewrite bind_run; [|unfold from_wav; by rewrite Hin].
    erewrite bind_run;
      [|unfold VocalOnly.float_floordiv; by rewrite inject_Z_nonzero by done].
    erewrite bind_run;
      [|unfold VocalOnly.float_modulo; by rewrite inject_Z_nonzero by done].
    erewrite bind_run; [|exact Hmk].
    rewrite Qfloor_Z, float_modulo_positive, Qfloor_div_ms by done.
    fold T. fold num_chunks.
    erewrite bind_run; [done|].
    unfold Py.range. replace start with (start + 0) at 1 by lia.
    rewrite Hloop. f_equal. f_equal. lia.
  - by rewrite Hout, <-Hout1.
  - intros i Hi. rewrite Hchunk by lia.
    rewrite <-code_chunk_start, <-code_chunk_end, slice_chunk; [done|].
    by apply chunk_start_nonneg.
  - rewrite Hother; [done|intros; apply not_eq_sym, chunk_path_not_dir].
  - intros p Hp1 Hp3. rewrite Hother; [|intros; apply Hp3; lia]. by apply Hfs1.
Qed.

End SplitRun.

Section SplitClaims.
Import Vocal.
Implicit Types w : world.
Implicit Types audio : AudioSegment.

Lemma seqZ_max m n : seqZ m (Z.max 0 n) = seqZ m n.
Proof. rewrite (seqZ_to_nat m n), (seqZ_to_nat m (Z.max 0 n)). do 2 f_equal. lia. Qed.

Lemma list_sum_lengths {A} (ls : list (list A)) :
  list_sum (length <$> ls) = length (concat ls).
Proof. symmetry. apply length_concat. Qed.


Lemma vocal_path_chunk_path d start k :
  Path.join d (Numbering.vocal_filename k) = SplitSpec.chunk_path d start (k - start).
Proof. unfold SplitSpec.chunk_path. do 2 f_equal. lia. Qed.

Lemma vocal_path_untouched d start n k (m m' : gmap string (Fs.node content)) :
  (forall p, p <> SplitSpec.csv_path d -> p <> d ->
     (forall i, 0 <= i < n -> p <> SplitSpec.chunk_path d start i) ->
     m' !! p = m !! p) ->
  ~ (start <= k < start + n) ->
  m' !! Path.join d (Numbering.vocal_filename k)
  = m !! Path.join d (Numbering.vocal_filename k).
Proof.
  intros Hother Hk. rewrite (vocal_path_chunk_path d start k).
  apply Hother.
  - apply chunk_path_not_csv.
  - apply chunk_path_not_dir.
  - intros i Hi Heq. apply chunk_path_inj in Heq. lia.
Qed.


(** C10. Splitting a track of duration 0 with a chunk length [L > 0] exports
    nothing: nothing is printed, no path [vocal<k>.wav] of the output
    directory changes, nothing changes outside the output directory (and
    the log of [vocal_only1.py]), and the call returns [start_number]. *)
Theorem split_wav_file_empty w input_wav output_dir L start :
  fs w !! input_wav = Some (Fs.File (Wav [])) ->
  0 < L ->
  (forall c, fs w !! output_dir <> Some (Fs.File c)) ->
  (exists w',
     VocalOnly.split_wav_file input_wav output_dir L start w
       = (Py.Return start, w') /\
     stdout w' = stdout w /\
     (forall k, fs w' !! Path.join output_dir (Numbering.vocal_filename k)
                = fs w !! Path.join output_dir (Numbering.vocal_filename k)) /\
     (forall p, p <> output_dir -> fs w' !! p = fs w !! p)) /\
  (fs w !! SplitSpec.csv_path output_dir = None \/
   (exists old, fs w !! SplitSpec.csv_path output_dir = Some (Fs.File (Text old))) ->
   exists w',
     VocalOnly1.split_wav_file input_wav output_dir L start w
       = (Py.Return start, w') /\
     stdout w' = stdout w /\
     (forall k, fs w' !! Path.join output_dir (Numbering.vocal_filename k)
                = fs w !! Path.join output_dir (Numbering.vocal_filename k)) /\
     (forall p, p <> output_dir -> p <> SplitSpec.csv_path output_dir ->
        fs w' !! p = fs w !! p)).
Proof.
  intros Hin HL Hdir. split.
  - destruct (split0_run w input_wav output_dir [] L start Hin ltac:(lia) Hdir)
      as (w' & Hrun & Hout & _ & _ & Hother).
    simpl in Hrun, Hout, Hother. rewrite ?Zdiv_0_l, ?Zmod_0_l in *. simpl in *.
    rewrite ?Z.add_0_r in Hrun. rewrite ?app_nil_r in Hout.
    exists w'. split; [done|]. split; [done|]. split.
    + intros k. rewrite (vocal_path_chunk_path output_dir start k).
      apply Hother; [apply chunk_path_not_dir | intros; lia].
    + intros p Hp. apply Hother; [done | intros; lia].
  - intros Hlog.
    destruct (split1_run w input_wav output_dir [] L start Hin ltac:(lia) Hdir Hlog)
      as (w' & Hrun & Hout & _ & _ & _ & Hother).
    simpl in Hrun, Hout, Hother. rewrite ?Zdiv_0_l, ?Zmod_0_l in *. simpl in *.
    rewrite ?Z.add_0_r in Hrun. rewrite ?app_nil_r in Hout.
    exists w'. split; [done|]. split; [done|]. split.
    + intros k. apply (vocal_path_untouched _ start 0); [done|lia].
    + intros p Hp1 Hp2. apply Hother; [done | done | intros; lia].
Qed.


End SplitClaims.



Lemma split_wav_file_empty_witness :
  exists w',
    VocalOnly1.split_wav_file "in.wav" "out" 5 7 Examples.w_silent = (Py.Return 7, w').
Proof.
  destruct (split_wav_file_empty Examples.w_silent "in.wav" "out" 5 7)
    as (_ & H); [reflexivity | lia | intros c; vm_compute; discriminate |].
  destruct H as (w' & Hrun & _); [left; reflexivity|].
  exists w'. exact Hrun.
Defined.


(** The scenario of the specification: 65 seconds cut every 30 seconds. *)
Example chunks_65s_30s :
  SplitSpec.ceil_div 65000 (30 * 1000) = 3 /\
  (fun i => SplitSpec.chunk_end 30 65000 i - SplitSpec.chunk_start 30 i) <$> seqZ 0 3
    = [30000; 30000; 5000] /\
  (fun i => VocalOnly1.csv_line (SplitSpec.log_row 30 65000 1 i)) <$> seqZ 0 3
    = ["vocal1.wav,00:00:00,00:00:30"; "vocal2.wav,00:00:30,00:01:00";
       "vocal3.wav,00:01:00,00:01:05"].
Proof. vm_compute. repeat split. Qed.

(** Hours are not wrapped at 24. *)
Example format_time_100h :
  VocalOnly1.format_time (100 * 3600000 + 61001) = "100:01:01".
Proof. vm_compute. reflexivity. Qed.

(** ** The duration sweep *)

Section SweepFacts.
Import RemoveFile SweepSpec.
Implicit Types w : world.
Implicit Types m : gmap string (Fs.node wav).

Lemma Qltb_lt x y : Qltb x y = true <-> (x < y)%Q.
Proof.
  unfold Qltb. rewrite negb_true_iff. split.
  - intros H. apply Qnot_le_lt. intros Hle%Qle_bool_iff. congruence.
  - intros H. apply not_true_is_false. intros Hle%Qle_bool_iff.
    by apply (Qlt_not_le _ _ H).
Qed.

(** The test [duration < min_duration or duration > min_duration] fails
    exactly on equal durations. *)
Lemma differs_false_iff x y : Qltb x y || Qltb y x = false <-> (x == y)%Q.
Proof.
  rewrite orb_false_iff. split.
  - intros [H1 H2]. apply Qle_antisym.
    + apply Qnot_lt_le. intros H%Qltb_lt. congruence.
    + apply Qnot_lt_le. intros H%Qltb_lt. congruence.
  - intros H. split; apply not_true_is_false; intros Hlt%Qltb_lt;
      apply Qlt_not_eq in Hlt; [done | by apply Hlt].
Qed.

Lemma differs_true_iff x y : Qltb x y || Qltb y x = true <-> ~ (x == y)%Q.
Proof.
  rewrite <-differs_false_iff. by destruct (Qltb x y || Qltb y x).
Qed.

Lemma vocal_path_inj d : Inj (=) (=) (vocal_path d).
Proof.
  intros i j H. unfold vocal_path in H.
  apply join_inj in H; [|apply vocal_filename_relative..].
  by apply vocal_filename_inj in H.
Qed.

Lemma probe_spec fuel m d c :
  let r := probe fuel m d c in
  c <= r <= c + Z.of_nat fuel /\
  (forall k, c <= k < r -> is_Some (m !! vocal_path d k)) /\
  (r < c + Z.of_nat fuel -> m !! vocal_path d r = None).
Proof.
  revert c. induction fuel as [|fuel IH]; intros c; simpl.
  - repeat split; intros; lia.
  - unfold Fs.exists_. fold (vocal_path d c).
    destruct (bool_decide (is_Some (m !! vocal_path d c))) eqn:E.
    + apply bool_decide_eq_true in E.
      destruct (IH (c + 1)) as (Hr & Hall & Hfree).
      split; [lia|]. split.
      * intros k Hk. destruct (decide (k = c)) as [->|]; [done|]. apply Hall. lia.
      * intros Hlt. apply Hfree. lia.
    + apply bool_decide_eq_false in E. split; [lia|]. split; [intros; lia|].
      intros _. by apply eq_None_not_Some.
Qed.

(** The paths of a map are too few to hold more names than its size. *)
Lemma names_exhaust m d c :
  ~ (forall k, c <= k < c + Z.of_nat (S (size m)) -> is_Some (m !! vocal_path d k)).
Proof.
  intros Hall.
  set (l := vocal_path d <$> seqZ c (Z.of_nat (S (size m)))).
  assert (NoDup l) as Hnd.
  { apply NoDup_fmap_2; [apply vocal_path_inj | apply NoDup_seqZ]. }
  assert (list_to_set l ⊆ dom m) as Hsub.
  { intros p Hp. apply elem_of_list_to_set in Hp.
    apply list_elem_of_fmap in Hp as (k & -> & Hk).
    apply list_elem_of_lookup in Hk as [i Hi]. apply lookup_seqZ in Hi.
    apply elem_of_dom, Hall. lia. }
  apply subseteq_size in Hsub.
  rewrite size_list_to_set, size_dom in Hsub by done.
  unfold l in Hsub. rewrite length_fmap, length_seqZ in Hsub. lia.
Qed.

Lemma next_free_counter_spec m d c :
  let r := next_free_counter m d c in
  c <= r /\
  m !! vocal_path d r = None /\
  (forall k, c <= k < r -> is_Some (m !! vocal_path d k)).
Proof.
  unfold next_free_counter.
  destruct (probe_spec (S (size m)) m d c) as (Hr & Hall & Hfree).
  split; [lia|]. split; [|done].
  apply Hfree. destruct (decide (probe (S (size m)) m d c < c + Z.of_nat (S (size m))));
    [done|].
  destruct (names_exhaust m d c). intros k Hk. apply Hall. lia.
Qed.

Lemma get_wav_duration_measured filepath w duration :
  read_duration (fs w !! filepath) = inl duration ->
  get_wav_duration filepath w = (Py.Return (Some duration), w).
Proof. intros H. unfold get_wav_duration, Py.bind, Py.get. by rewrite H. Qed.

Lemma get_wav_duration_failed filepath w (wave_error : bool) e :
  read_duration (fs w !! filepath) = inr (wave_error, e) ->
  get_wav_duration filepath w
  = (Py.Return None,
     {| fs := fs w;
        stdout := stdout w ++ [if wave_error then ErrorReading filepath e
                               else UnexpectedError filepath e] |}).
Proof.
  intros H. unfold get_wav_duration, Py.bind, Py.get. rewrite H.
  by destruct wave_error.
Qed.

Lemma read_duration_wave m filepath frames rate :
  m !! filepath = Some (Fs.File (Wave frames (Npos rate))) ->
  read_duration (m !! filepath) = inl (Z.of_N frames # rate)%Q.
Proof. by intros ->. Qed.

Lemma process_file_skip min_duration d root file c w (wave_error : bool) e :
  read_duration (fs w !! Path.join root file) = inr (wave_error, e) ->
  process_file min_duration d root file c w
  = (Py.Return c,
     {| fs := fs w;
        stdout := stdout w ++
          [if wave_error then ErrorReading (Path.join root file) e
           else UnexpectedError (Path.join root file) e;
           Skipping (Path.join root file)] |}).
Proof.
  intros H. unfold process_file.
  erewrite bind_run; [|by apply get_wav_duration_failed].
  unfold Py.bind, print, Py.modify, Py.ret. simpl. by rewrite <-app_assoc.
Qed.

Lemma process_file_delete min_duration d root file c w frames rate :
  fs w !! Path.join root file = Some (Fs.File (Wave frames (Npos rate))) ->
  ~ (Z.of_N frames # rate == min_duration)%Q ->
  process_file min_duration d root file c w
  = (Py.Return c,
     {| fs := delete (Path.join root file) (fs w);
        stdout := stdout w ++ [Deleted (Path.join root file) (Z.of_N frames # rate)] |}).
Proof.
  intros Hf Hne. unfold process_file.
  erewrite bind_run;
    [|by apply get_wav_duration_measured, read_duration_wave].
  cbv beta iota.
  rewrite (proj2 (differs_true_iff _ _) Hne).
  unfold Py.try_except, Py.bind, remove. by rewrite Hf.
Qed.

Lemma process_file_move min_duration d root file c w frames rate :
  fs w !! Path.join root file = Some (Fs.File (Wave frames (Npos rate))) ->
  (Z.of_N frames # rate == min_duration)%Q ->
  process_file min_duration d root file c w
  = (Py.Return (next_free_counter (fs w) d c + 1),
     {| fs := <[vocal_path d (next_free_counter (fs w) d c) :=
                  Fs.File (Wave frames (Npos rate))]>
                (delete (Path.join root file) (fs w));
        stdout := stdout w ++
          [MovedAndRenamed (Path.join root file)
             (vocal_path d (next_free_counter (fs w) d c))
             (Z.of_N frames # rate)] |}).
Proof.
  intros Hf Heq. unfold process_file.
  erewrite bind_run;
    [|by apply get_wav_duration_measured, read_duration_wave].
  cbv beta iota.
  rewrite (proj2 (differs_false_iff _ _) Heq).
  destruct (next_free_counter_spec (fs w) d c) as (_ & Hfree & _).
  unfold Py.try_except, Py.bind, Py.get, move. rewrite Hf.
  fold (vocal_path d (next_free_counter (fs w) d c)). by rewrite Hfree.
Qed.

(** Whatever [process_file] does, it returns, and a path that held
    something keeps it, unless it is the file processed. *)
Lemma process_file_preserves min_duration d root file c w :
  exists c' w',
    process_file min_duration d root file c w = (Py.Return c', w') /\
    c <= c' /\
    (forall p n, fs w !! p = Some n -> p <> Path.join root file ->
                 fs w' !! p = Some n).
Proof.
  set (filepath := Path.join root file).
  destruct (read_duration (fs w !! filepath)) as [duration|[wave_error e]] eqn:Hread.
  - unfold process_file. fold filepath.
    erewrite bind_run; [|by apply get_wav_duration_measured].
    cbv beta iota.
    destruct (Qltb duration min_duration || Qltb min_duration duration).
    + unfold Py.try_except, Py.bind, remove.
      destruct (fs w !! filepath) as [[|x]|] eqn:Hf; simpl.
      * eexists _, _. split; [done|]. split; [lia|]. eauto.
      * eexists _, _. split; [done|]. split; [lia|]. simpl.
        intros p n Hp Hne. by rewrite lookup_delete_ne.
      * eexists _, _. split; [done|]. split; [lia|]. eauto.
    + destruct (next_free_counter_spec (fs w) d c) as (Hle & Hfree & _).
      unfold Py.try_except, Py.bind, Py.get, move.
      fold (vocal_path d (next_free_counter (fs w) d c)). rewrite Hfree.
      destruct (fs w !! filepath) as [x|] eqn:Hf; simpl.
      * eexists _, _. split; [done|]. split; [lia|]. simpl.
        intros p n Hp Hne. rewrite lookup_insert_ne by congruence.
        by rewrite lookup_delete_ne.
      * eexists _, _. split; [done|]. split; [lia|]. eauto.
  - rewrite (process_file_skip _ _ _ _ _ _ _ _ Hread).
    eexists _, _. split; [done|]. split; [lia|]. eauto.
Qed.

End SweepFacts.

Section SweepRuns.
Import RemoveFile SweepSpec.
Variable abspath : string -> string.
Implicit Types w : world.

Lemma process_root_preserves min_duration d root files : forall c w,
  exists c' w',
    process_root abspath min_duration d (root, files) c w = (Py.Return c', w') /\
    c <= c' /\
    (forall p n, fs w !! p = Some n ->
       (forall file, file ∈ files -> p <> Path.join root file) ->
       fs w' !! p = Some n).
Proof.
  unfold process_root. intros c w.
  destruct (bool_decide (abspath root = abspath d)).
  { eexists _, _. split; [done|]. split; [lia|]. eauto. }
  revert c w. induction files as [|file files IH]; intros c w.
  - eexists _, _. split; [done|]. split; [lia|]. eauto.
  - assert (exists c1 w1,
      (if Str.endswith ".wav" (Str.lower file)
       then process_file min_duration d root file c
       else Py.ret c) w = (Py.Return c1, w1) /\ c <= c1 /\
      (forall p n, fs w !! p = Some n -> p <> Path.join root file ->
                   fs w1 !! p = Some n)) as (c1 & w1 & Hrun & Hc & Hkeep).
    { destruct (Str.endswith ".wav" (Str.lower file)).
      - apply process_file_preserves.
      - eexists _, _. split; [done|]. split; [lia|]. eauto. }
    rewrite (for_each_cons _ _ _ _ _ _ _ Hrun).
    destruct (IH c1 w1) as (c' & w' & Hrun' & Hc' & Hkeep').
    exists c', w'. split; [done|]. split; [lia|].
    intros p n Hp Hnot. apply Hkeep'.
    + apply Hkeep; [done|]. apply Hnot. left.
    + intros f Hf. apply Hnot. by right.
Qed.

Lemma walk_preserves min_duration d walk : forall c w,
  exists c' w',
    Py.for_each walk c (process_root abspath min_duration d) w = (Py.Return c', w') /\
    c <= c' /\
    (forall p n, fs w !! p = Some n -> ~ visited walk p -> fs w' !! p = Some n).
Proof.
  induction walk as [|[root files] walk IH]; intros c w.
  - eexists _, _. split; [done|]. split; [lia|]. eauto.
  - destruct (process_root_preserves min_duration d root files c w)
      as (c1 & w1 & Hrun & Hc & Hkeep).
    rewrite (for_each_cons _ _ _ _ _ _ _ Hrun).
    destruct (IH c1 w1) as (c' & w' & Hrun' & Hc' & Hkeep').
    exists c', w'. split; [done|]. split; [lia|].
    intros p n Hp Hnot. apply Hkeep'.
    + apply Hkeep; [done|]. intros file Hfile ->. apply Hnot.
      exists root, files, file. split; [left|done].
    + intros (root' & files' & file & Hin & Hfile & ->). apply Hnot.
      exists root', files', file. split; [by right|done].
Qed.

Lemma process_wav_files_preserves walk source_directory min_duration d w :
  forall p n, fs w !! p = Some n -> ~ visited walk p ->
    fs (process_wav_files abspath walk source_directory min_duration d w).2 !! p
    = Some n.
Proof.
  intros p n Hp Hnot. unfold process_wav_files, Py.bind at 1, Py.get.
  destruct (Fs.isdir (fs w) source_directory); simpl; [|done].
  unfold Py.bind at 1.
  destruct (fs w !! d) as [[|x]|] eqn:Hd; [| done |].
  - destruct (walk_preserves min_duration d walk 1 w) as (c' & w' & Hrun & _ & Hkeep).
    erewrite bind_run; [|exact Hrun]. simpl. by apply Hkeep.
  - set (w0 := set_fs _ w).
    destruct (walk_preserves min_duration d walk 1 w0) as (c' & w' & Hrun & _ & Hkeep).
    erewrite bind_run; [|exact Hrun]. simpl. apply Hkeep; [|done].
    simpl. unfold Fs.makedirs. rewrite lookup_insert_ne; [done|]. congruence.
Qed.

End SweepRuns.

Section SweepClaims.
Import RemoveFile SweepSpec.
Implicit Types w : world.

(** C5, as amended. For a visited file whose duration [frames / rate] can be
    measured: if the duration equals the threshold, the file is moved (its
    old path is gone, its content is at the new path, nothing else changes)
    to [vocal<N>.wav] in the final folder, where [N] is the first number
    from the sweep's running counter on whose name is not taken there, and
    the counter becomes [N + 1]; if the duration differs from the threshold,
    the file is deleted, nothing is moved and the counter stays. *)
Theorem process_file_triage min_duration final_folder_path root file
    vocal_counter w frames rate :
  let filepath := Path.join root file in
  let duration := (Z.of_N frames # rate)%Q in
  fs w !! filepath = Some (Fs.File (Wave frames (Npos rate))) ->
  ((duration == min_duration)%Q ->
   let N := next_free_counter (fs w) final_folder_path vocal_counter in
   let new_filepath := vocal_path final_folder_path N in
   vocal_counter <= N /\
   fs w !! new_filepath = None /\
   (forall k, vocal_counter <= k < N ->
      is_Some (fs w !! vocal_path final_folder_path k)) /\
   exists w',
     process_file min_duration final_folder_path root file vocal_counter w
       = (Py.Return (N + 1), w') /\
     fs w' = <[new_filepath := Fs.File (Wave frames (Npos rate))]>
               (delete filepath (fs w)) /\
     fs w' !! filepath = None /\
     fs w' !! new_filepath = Some (Fs.File (Wave frames (Npos rate))) /\
     stdout w' = stdout w ++ [MovedAndRenamed filepath new_filepath duration]) /\
  (~ (duration == min_duration)%Q ->
   exists w',
     process_file min_duration final_folder_path root file vocal_counter w
       = (Py.Return vocal_counter, w') /\
     fs w' = delete filepath (fs w) /\
     stdout w' = stdout w ++ [Deleted filepath duration]).
Proof.
  intros filepath duration Hf. split.
  - intros Heq N new_filepath.
    destruct (next_free_counter_spec (fs w) final_folder_path vocal_counter)
      as (Hle & Hfree & Hall).
    split; [done|]. split; [done|]. split; [done|].
    eexists. split; [by apply process_file_move|]. simpl.
    split; [done|]. split; [|split; [apply lookup_insert_eq|done]].
    rewrite lookup_insert_ne; [apply lookup_delete_eq|].
    intros E. subst new_filepath N filepath. rewrite E in Hfree. congruence.
  - intros Hne. eexists. split; [by apply process_file_delete|]. done.
Qed.

(** C6. A visited file whose duration cannot be measured is reported
    twice (the error, then the skip) and left alone: the file system and the
    counter are as before, and the sweep of its folder goes on with the
    files that follow. *)
Theorem process_file_unreadable min_duration final_folder_path root file
    vocal_counter w (wave_error : bool) e :
  let filepath := Path.join root file in
  read_duration (fs w !! filepath) = inr (wave_error, e) ->
  let w' := {| fs := fs w;
               stdout := stdout w ++
                 [if wave_error then ErrorReading filepath e
                  else UnexpectedError filepath e;
                  Skipping filepath] |} in
  process_file min_duration final_folder_path root file vocal_counter w
    = (Py.Return vocal_counter, w') /\
  (forall abspath rest,
     Str.endswith ".wav" (Str.lower file) = true ->
     abspath root <> abspath final_folder_path ->
     process_root abspath min_duration final_folder_path (root, file :: rest)
       vocal_counter w
     = process_root abspath min_duration final_folder_path (root, rest)
         vocal_counter w').
Proof.
  intros filepath Hread w'.
  pose proof (process_file_skip min_duration final_folder_path root file
                vocal_counter w wave_error e Hread) as Hskip.
  split; [exact Hskip|].
  intros abspath rest Hwav Hroot. unfold process_root.
  rewrite bool_decide_eq_false_2 by done.
  apply for_each_cons. by rewrite Hwav.
Qed.

(** C7. The name the sweep picks is the first one from the counter on that
    is not in the file system, every candidate before it being taken; a file
    processed leaves whatever else exists in place; so does a whole sweep,
    for every path that is not itself one of the files swept. With
    [vocal1.wav] in the final folder and [vocal2.wav] free, the first
    qualifying file becomes [vocal2.wav] and [vocal1.wav] stays as it is. *)
Theorem sweep_never_overwrites abspath min_duration final_folder_path :
  (forall (m : gmap string (Fs.node wav)) vocal_counter,
     let N := next_free_counter m final_folder_path vocal_counter in
     vocal_counter <= N /\
     m !! vocal_path final_folder_path N = None /\
     (forall k, vocal_counter <= k < N ->
        is_Some (m !! vocal_path final_folder_path k))) /\
  (forall root file vocal_counter w,
     exists vocal_counter' w',
       process_file min_duration final_folder_path root file vocal_counter w
         = (Py.Return vocal_counter', w') /\
       (forall p n, fs w !! p = Some n -> p <> Path.join root file ->
                    fs w' !! p = Some n)) /\
  (forall walk source_directory w p n,
     fs w !! p = Some n -> ~ visited walk p ->
     fs (process_wav_files abspath walk source_directory min_duration
           final_folder_path w).2 !! p = Some n) /\
  (forall root file w frames rate n,
     fs w !! Path.join root file = Some (Fs.File (Wave frames (Npos rate))) ->
     (Z.of_N frames # rate == min_duration)%Q ->
     fs w !! Path.join final_folder_path "vocal1.wav" = Some n ->
     fs w !! Path.join final_folder_path "vocal2.wav" = None ->
     Path.join root file <> Path.join final_folder_path "vocal1.wav" ->
     exists w',
       process_file min_duration final_folder_path root file 1 w
         = (Py.Return 3, w') /\
       fs w' !! Path.join final_folder_path "vocal2.wav"
         = Some (Fs.File (Wave frames (Npos rate))) /\
       fs w' !! Path.join final_folder_path "vocal1.wav" = Some n).
Proof.
  split; [intros; apply next_free_counter_spec|].
  split; [|split; [intros; by apply process_wav_files_preserves|]].
  - intros root file c w.
    destruct (process_file_preserves min_duration final_folder_path root file c w)
      as (c' & w' & Hrun & _ & Hkeep). eauto.
  - intros root file w frames rate n Hf Heq H1 H2 Hne.
    destruct (next_free_counter_spec (fs w) final_folder_path 1)
      as (Hle & Hfree & Hall).
    assert (next_free_counter (fs w) final_folder_path 1 = 2) as HN.
    { set (N := next_free_counter (fs w) final_folder_path 1) in *.
      destruct (decide (N = 1)) as [E|E1].
      { rewrite E in Hfree. unfold vocal_path in Hfree.
        change (Numbering.vocal_filename 1) with "vocal1.wav" in Hfree. congruence. }
      destruct (decide (N = 2)) as [E|E2]; [done|].
      destruct (Hall 2 ltac:(lia)) as [x Hx]. unfold vocal_path in Hx.
      change (Numbering.vocal_filename 2) with "vocal2.wav" in Hx. congruence. }
    eexists. split.
    { rewrite (process_file_move _ _ _ _ _ _ _ _ Hf Heq), HN. done. }
    simpl. unfold vocal_path.
    change (Numbering.vocal_filename 2) with "vocal2.wav".
    split; [apply lookup_insert_eq|].
    rewrite lookup_insert_ne by congruence. by rewrite lookup_delete_ne.
Qed.

End SweepClaims.

Lemma process_file_triage_witness :
  exists w',
    RemoveFile.process_file 30 "final" "src" "a.wav" 1 Examples.w_sweep
      = (Py.Return 2, w') /\
    RemoveFile.fs w' !! "src/a.wav" = None /\
    RemoveFile.fs w' !! "final/vocal1.wav" = Some (Fs.File (RemoveFile.Wave 30 1)).
Proof.
  destruct (process_file_triage 30 "final" "src" "a.wav" 1 Examples.w_sweep 30 1)
    as [Hmove _]; [reflexivity|].
  destruct Hmove as (_ & _ & _ & w' & Hrun & _ & Hgone & Hnew & _); [reflexivity|].
  exists w'. split; [exact Hrun|]. split; [exact Hgone | exact Hnew].
Defined.

Lemma process_file_unreadable_witness :
  RemoveFile.process_file 30 "final" "src" "bad.wav" 1 Examples.w_mixed
  = (Py.Return 1,
     {| RemoveFile.fs := RemoveFile.fs Examples.w_mixed;
        RemoveFile.stdout :=
          [RemoveFile.ErrorReading "src/bad.wav" "not a WAVE file";
           RemoveFile.Skipping "src/bad.wav"] |}).
Proof.
  exact (proj1 (process_file_unreadable 30 "final" "src" "bad.wav" 1 Examples.w_mixed
                  true "not a WAVE file" eq_refl)).
Defined.

Lemma sweep_never_overwrites_witness :
  exists w',
    RemoveFile.process_file 30 "final" "src" "full.wav" 1 Examples.w_mixed
      = (Py.Return 3, w') /\
    RemoveFile.fs w' !! "final/vocal2.wav" = Some (Fs.File (RemoveFile.Wave 3000 100)) /\
    RemoveFile.fs w' !! "final/vocal1.wav" = Some (Fs.File (RemoveFile.Wave 30 1)).
Proof.
  destruct (sweep_never_overwrites id 30 "final") as (_ & _ & _ & H).
  apply (H "src" "full.wav" Examples.w_mixed 3000%N 100%positive);
    [reflexivity | reflexivity | reflexivity | reflexivity | discriminate].
Defined.

(** C5 fails as stated: with only [vocal3.wav] in the final folder the
    numbering counter of that folder is 4, but the sweep, which counts from
    1 on its own, moves the qualifying file to [vocal1.wav]. *)
Lemma sweep_numbering_counterexample :
  (Numbering.get_next_vocal_number "final" (RemoveFile.fs Examples.w_sweep)).1 = 4 /\
  exists w',
    RemoveFile.process_wav_files id [("src", ["a.wav"])] "src" 30 "final"
      Examples.w_sweep = (Py.Return 2, w') /\
    RemoveFile.fs w' !! "src/a.wav" = None /\
    RemoveFile.fs w' !! "final/vocal1.wav" = Some (Fs.File (RemoveFile.Wave 30 1)) /\
    RemoveFile.fs w' !! "final/vocal4.wav" = None.
Proof.
  split; [vm_compute; reflexivity|].
  eexists. split; [vm_compute; reflexivity|]. vm_compute. repeat split.
Qed.

(** The scenarios of the specification: exactly 30.00 seconds is moved,
    29.99 seconds is deleted, and a corrupt file is skipped. *)
Example sweep_mixed :
  exists w',
    RemoveFile.process_wav_files id
      [("src", ["bad.wav"; "short.wav"; "full.wav"])] "src" 30 "final"
      Examples.w_mixed = (Py.Return 3, w') /\
    RemoveFile.fs w' !! "src/bad.wav" = Some (Fs.File (RemoveFile.BadWave "not a WAVE file")) /\
    RemoveFile.fs w' !! "src/short.wav" = None /\
    RemoveFile.fs w' !! "src/full.wav" = None /\
    RemoveFile.fs w' !! "final/vocal1.wav" = Some (Fs.File (RemoveFile.Wave 30 1)) /\
    RemoveFile.fs w' !! "final/vocal2.wav" = Some (Fs.File (RemoveFile.Wave 3000 100)).
Proof. eexists. split; [vm_compute; reflexivity|]. vm_compute. repeat split. Qed.

(** ** The pipeline driver *)

Section DriverFacts.
Import Vocal DriverSpec.
Implicit Types w : world.

Lemma print_run line w : print line w = (Py.Return tt, printed [line] w).
Proof. done. Qed.

Lemma printed_app l1 l2 w : printed l2 (printed l1 w) = printed (l1 ++ l2) w.
Proof. unfold printed. simpl. by rewrite <-app_assoc. Qed.

Lemma clean_up_cases temp_dir w :
  match fs w !! temp_dir with
  | Some Fs.Dir =>
      clean_up temp_dir w
      = (Py.Return tt,
         printed ["Cleaned up temporary files in '" +:+ temp_dir +:+ "'."]
           (set_fs (filter (fun kv => kv.1 <> temp_dir /\
                      Str.strip_prefix (Path.dir_prefix temp_dir) kv.1 = None)) w))
  | Some (Fs.File _) =>
      clean_up temp_dir w
      = (Py.Return tt,
         printed ["Failed to clean up temporary files: Not a directory: "
                  +:+ temp_dir] w)
  | None => clean_up temp_dir w = (Py.Return tt, w)
  end.
Proof.
  unfold clean_up, Py.bind, exists_, Py.try_except, rmtree, Fs.exists_.
  destruct (fs w !! temp_dir) as [[|c]|] eqn:E; simpl; rewrite ?E; try done.
Qed.

(** [clean_up] never raises. *)
Lemma clean_up_returns temp_dir w :
  clean_up temp_dir w = (Py.Return tt, cleaned temp_dir w).
Proof.
  unfold cleaned. pose proof (clean_up_cases temp_dir w) as H.
  destruct (fs w !! temp_dir) as [[|c]|]; by rewrite H.
Qed.

(** What [clean_up] leaves: everything printed before, a directory
    [temp_dir] gone with all that was in it, and the rest of the file
    system as it was. *)
Lemma cleaned_spec temp_dir w :
  (exists tail, stdout (cleaned temp_dir w) = stdout w ++ tail) /\
  (fs w !! temp_dir = Some Fs.Dir ->
   forall p, below temp_dir p -> fs (cleaned temp_dir w) !! p = None) /\
  (forall p, ~ below temp_dir p -> fs (cleaned temp_dir w) !! p = fs w !! p).
Proof.
  unfold cleaned. pose proof (clean_up_cases temp_dir w) as H.
  destruct (fs w !! temp_dir) as [[|c]|] eqn:E; rewrite H; simpl.
  - split; [eauto|]. split.
    + intros _ p Hp. apply map_lookup_filter_None. right. intros x Hx [H1 H2].
      simpl in *. destruct Hp as [->|[r Hr]]; [done | congruence].
    + intros p Hp. destruct (fs w !! p) as [x|] eqn:Hx.
      * apply map_lookup_filter_Some. split; [done|]. simpl. split.
        -- intros ->. apply Hp. by left.
        -- apply eq_None_not_Some. intros Hs. apply Hp. by right.
      * apply map_lookup_filter_None. by left.
  - split; [eauto|]. split; done.
  - split; [exists []; by rewrite app_nil_r|]. split; done.
Qed.

Section Driver.
Variable ydl_download : string -> string -> Py.M world unit.
Variable separate_to_file : string -> string -> Py.M world unit.
Variable split_wav_file : string -> string -> Z -> Z -> Py.M world Z.
Variable chunk_length_sec : Z.
Variables youtube_url split_output_dir : string.
Variable current_number : Z.

Let temp_dir := "temp_processing".
Let run := process_youtube_video ydl_download separate_to_file split_wav_file
             chunk_length_sec youtube_url split_output_dir current_number.
Let body := process_body ydl_download separate_to_file split_wav_file
              chunk_length_sec temp_dir youtube_url split_output_dir current_number.

(** The driver, by the outcome of its [try] block. *)
Lemma driver_outcome w :
  run w =
    match body w with
    | (Py.Return n, w1) => (Py.Return n, cleaned temp_dir w1)
    | (Py.Raise e, w1) =>
        if Py.is_Exception e
        then (Py.Return current_number,
              cleaned temp_dir (printed [error_line youtube_url (Py.message e)] w1))
        else (Py.Raise e, cleaned temp_dir w1)
    end.
Proof.
  unfold run, process_youtube_video, Py.try_finally, Py.try_except.
  fold temp_dir. fold body.
  destruct (body w) as [[n|e] w1].
  - by rewrite clean_up_returns.
  - destruct (Py.is_Exception e).
    + unfold Py.bind. rewrite print_run. simpl. by rewrite clean_up_returns.
    + by rewrite clean_up_returns.
Qed.

Lemma driver_caught w e w1 :
  body w = (Py.Raise e, w1) -> Py.is_Exception e = true ->
  run w = (Py.Return current_number,
           cleaned temp_dir (printed [error_line youtube_url (Py.message e)] w1)).
Proof. intros Hb He. by rewrite driver_outcome, Hb, He. Qed.

(** The worlds in which the three steps start. *)
Let fetch := download_audio ydl_download youtube_url (Path.join temp_dir "audio").
Let separate (mp3 : string) :=
  extract_vocals separate_to_file mp3 (Path.join temp_dir "vocals").
Let segment (wav : string) :=
  split_wav_file wav split_output_dir chunk_length_sec current_number.
Let before_fetch w1 :=
  printed [Str.newline +:+ "Processing URL: " +:+ youtube_url;
           "  Downloading audio from YouTube..."] w1.
Let before_separate w2 :=
  printed ["  Audio downloaded successfully."; "  Extracting vocals..."] w2.
Let before_segment (wav : string) w3 :=
  printed ["  Vocals extracted and saved to '" +:+ wav +:+ "'.";
           "  Splitting the WAV file into " +:+ Str.of_int chunk_length_sec
             +:+ "-second segments..."] w3.

Lemma body_fetch w w1 :
  makedirs_exist_ok temp_dir w = (Py.Return tt, w1) ->
  body w =
    match fetch (before_fetch w1) with
    | (Py.Raise e, w2) => (Py.Raise e, w2)
    | (Py.Return mp3, w2) =>
        match separate mp3 (before_separate w2) with
        | (Py.Raise e, w3) => (Py.Raise e, w3)
        | (Py.Return wav, w3) =>
            match segment wav (before_segment wav w3) with
            | (Py.Raise e, w4) => (Py.Raise e, w4)
            | (Py.Return n, w4) =>
                (Py.Return n, printed ["  Splitting completed successfully."] w4)
            end
        end
    end.
Proof.
  intros Hmk. unfold body, process_body.
  erewrite bind_run; [|exact Hmk].
  erewrite bind_run; [|apply print_run].
  erewrite bind_run; [|apply print_run].
  rewrite printed_app. simpl app. fold fetch. fold (before_fetch w1).
  unfold Py.bind at 1. destruct (fetch (before_fetch w1)) as [[mp3|e] w2]; [|done].
  erewrite bind_run; [|apply print_run].
  erewrite bind_run; [|apply print_run].
  rewrite printed_app. simpl app. fold (separate mp3). fold (before_separate w2).
  unfold Py.bind at 1.
  destruct (separate mp3 (before_separate w2)) as [[wav|e] w3]; [|done].
  erewrite bind_run; [|apply print_run].
  erewrite bind_run; [|apply print_run].
  rewrite printed_app. simpl app. fold (segment wav). fold (before_segment wav w3).
  unfold Py.bind at 1.
  destruct (segment wav (before_segment wav w3)) as [[n|e] w4]; [|done].
  erewrite bind_run; [|apply print_run]. done.
Qed.


End Driver.

End DriverFacts.


(** * Further properties *)

(** ** Numbering: free names and exact values *)

Section NumberingMore.
Context {C : Type}.
Implicit Types fs : gmap string (Fs.node C).

Lemma all_digits_no_slash s : Str.all_digits s = true -> Str.contains "/" s = false.
Proof.
  induction s as [|a s IH]; [done|]. simpl. intros [Ha Hs]%andb_prop.
  rewrite IH by done. rewrite orb_false_r. apply bool_decide_eq_false.
  intros ->. done.
Qed.

Lemma of_int_isdigit k : 0 <= k -> Str.isdigit (Str.of_int k) = true.
Proof.
  intros Hk. destruct (of_int_nonneg k Hk) as (Hall & _ & Hlen & _).
  unfold Str.isdigit. destruct (Str.of_int k); [simpl in Hlen; lia | done].
Qed.

Lemma digits_value_of_int k : 0 <= k -> Spec.digits_value (Str.of_int k) = Some k.
Proof.
  intros Hk. rewrite digits_value_digits by (by apply of_int_isdigit).
  by destruct (of_int_nonneg k Hk) as (_ & -> & _).
Qed.

Lemma vocal_filename_no_slash k :
  0 <= k -> Str.contains "/" (Numbering.vocal_filename k) = false.
Proof.
  intros Hk. unfold Numbering.vocal_filename. rewrite !contains_app.
  rewrite (all_digits_no_slash (Str.of_int k)); [done|].
  by destruct (of_int_nonneg k Hk).
Qed.

Lemma file_value_vocal_filename d k :
  0 <= k -> Spec.file_value (Path.join d (Numbering.vocal_filename k)) = Some k.
Proof.
  intros Hk. unfold Numbering.vocal_filename. rewrite file_value_vocal.
  - by apply digits_value_of_int.
  - apply all_digits_no_slash. by destruct (of_int_nonneg k Hk).
Qed.

(** A chunk name that is in the directory lies below the scanned maximum. *)
Lemma present_below_max fs d k :
  0 <= k -> is_Some (fs !! Path.join d (Numbering.vocal_filename k)) ->
  k <= fold_left Numbering.scan_file (Fs.glob_vocal_wav fs d) 0.
Proof.
  intros Hk Hin. destruct (scanned_max fs d) as (_ & Hub & _).
  apply (Hub (Str.of_int k)); [|by apply digits_value_of_int].
  split; [done|]. split; [|done]. by apply vocal_filename_no_slash.
Qed.

End NumberingMore.

Section NumberingExtras.
Context {C : Type}.
Implicit Types fs : gmap string (Fs.node C).

Lemma file_values_vocal_filenames d nums :
  Forall (fun k => 0 <= k) nums ->
  omap Spec.file_value (Path.join d <$> (Numbering.vocal_filename <$> nums)) = nums.
Proof.
  induction 1 as [|k nums Hk _ IH]; [done|].
  rewrite !fmap_cons. simpl. rewrite file_value_vocal_filename by done.
  simpl. f_equal. exact IH.
Qed.

Lemma max_list_seqZ (K : nat) : Spec.max_list (seqZ 1 (Z.of_nat K)) = Z.of_nat K.
Proof.
  induction K as [|K IH]; [done|].
  rewrite seqZ_S. unfold Spec.max_list in *. rewrite foldr_app. simpl.
  assert (forall l a, 0 <= a -> foldr Z.max a l = Z.max a (foldr Z.max 0 l)) as Hf.
  { induction l as [|x l IHl]; intros a Ha; simpl; [lia|]. rewrite IHl by done. lia. }
  rewrite Hf by lia. rewrite IH. lia.
Qed.



End NumberingExtras.



(** ** Splitting: failures, negative lengths, fresh numbers *)

Section SplitMore.
Import Vocal.
Implicit Types w : world.
Implicit Types audio : AudioSegment.

(** X3. [split_wav_file] fails before it has any effect in three cases:
    the input is not a file of audio, the chunk length is 0, or a file
    stands where the output directory goes. In each the call raises an
    [Exception] and the world is as before: no directory is made, no log
    is opened, nothing is exported or printed. Both scripts. *)
Theorem split_wav_file_fails_clean w input_wav output_dir L start :
  (forall audio, fs w !! input_wav <> Some (Fs.File (Wav audio))) \/
  L = 0 \/
  (exists c, fs w !! output_dir = Some (Fs.File c)) ->
  (exists e, VocalOnly.split_wav_file input_wav output_dir L start w
               = (Py.Raise e, w) /\ Py.is_Exception e = true) /\
  (exists e, VocalOnly1.split_wav_file input_wav output_dir L start w
               = (Py.Raise e, w) /\ Py.is_Exception e = true).
Proof.
  intros Hfail.
  destruct (fs w !! input_wav) as [[|[audio| |]]|] eqn:Hin;
    try (split; eexists;
         (split; [unfold VocalOnly.split_wav_file, VocalOnly1.split_wav_file,
                    Py.bind, from_wav; rewrite Hin; reflexivity | done])).
  destruct (decide (L = 0)) as [->|HL].
  { split; eexists;
      (split; [unfold VocalOnly.split_wav_file, VocalOnly1.split_wav_file,
                 Py.bind, from_wav; rewrite Hin; reflexivity | done]). }
  destruct Hfail as [Hno|[?|[c Hc]]]; [by destruct (Hno audio) | done |].
  split.
  - eexists. split; [|shelve].
    unfold VocalOnly.split_wav_file.
    erewrite bind_run; [|unfold from_wav; by rewrite Hin].
    erewrite bind_run;
      [|unfold VocalOnly.float_floordiv; by rewrite inject_Z_nonzero by done].
    erewrite bind_run;
      [|unfold VocalOnly.float_modulo; by rewrite inject_Z_nonzero by done].
    unfold Py.bind, makedirs_exist_ok. rewrite Hc. reflexivity.
  - eexists. split; [|shelve].
    unfold VocalOnly1.split_wav_file.
    erewrite bind_run; [|unfold from_wav; by rewrite Hin].
    erewrite bind_run; [|unfold floordiv; rewrite (proj2 (Z.eqb_neq _ _)) by lia; done].
    erewrite bind_run; [|unfold modulo; rewrite (proj2 (Z.eqb_neq _ _)) by lia; done].
    unfold Py.bind, makedirs_exist_ok. rewrite Hc. reflexivity.
  Unshelve. all: reflexivity.
Qed.

(** X4. With a negative chunk length the loop does not run: the call
    returns [start_number], prints nothing and changes no path
    [vocal<k>.wav] of the output directory. Both scripts. *)
Theorem split_wav_file_negative w input_wav output_dir audio L start :
  fs w !! input_wav = Some (Fs.File (Wav audio)) ->
  L < 0 ->
  (forall c, fs w !! output_dir <> Some (Fs.File c)) ->
  (exists w',
     VocalOnly.split_wav_file input_wav output_dir L start w
       = (Py.Return start, w') /\
     stdout w' = stdout w /\
     (forall k, fs w' !! Path.join output_dir (Numbering.vocal_filename k)
                = fs w !! Path.join output_dir (Numbering.vocal_filename k))) /\
  (fs w !! SplitSpec.csv_path output_dir = None \/
   (exists old, fs w !! SplitSpec.csv_path output_dir = Some (Fs.File (Text old))) ->
   exists w',
     VocalOnly1.split_wav_file input_wav output_dir L start w
       = (Py.Return start, w') /\
     stdout w' = stdout w /\
     (forall k, fs w' !! Path.join output_dir (Numbering.vocal_filename k)
                = fs w !! Path.join output_dir (Numbering.vocal_filename k))).
Proof.
  intros Hin HL Hdir.
  pose proof (num_chunks_nonpos audio L ltac:(lia) HL) as Hn.
  split.
  - destruct (split0_run w input_wav output_dir audio L start Hin ltac:(lia) Hdir)
      as (w' & Hrun & Hout & _ & _ & Hother).
    rewrite Z.max_l, Z.add_0_r in Hrun by done.
    rewrite seqZ_nil, app_nil_r in Hout by done.
    exists w'. split; [done|]. split; [done|].
    intros k. rewrite (vocal_path_chunk_path output_dir start k).
    apply Hother; [apply chunk_path_not_dir | intros; lia].
  - intros Hlog.
    destruct (split1_run w input_wav output_dir audio L start Hin ltac:(lia) Hdir Hlog)
      as (w' & Hrun & Hout & _ & _ & _ & Hother).
    rewrite Z.max_l, Z.add_0_r in Hrun by done.
    rewrite seqZ_nil, app_nil_r in Hout by done.
    exists w'. split; [done|]. split; [done|].
    intros k. rewrite (vocal_path_chunk_path output_dir start k).
    apply Hother; [apply chunk_path_not_csv | apply chunk_path_not_dir | intros; lia].
Qed.

End SplitMore.

Lemma split_wav_file_fails_clean_witness :
  exists e,
    VocalOnly1.split_wav_file "in.wav" "out" 0 1 Examples.w_track
    = (Py.Raise e, Examples.w_track).
Proof.
  destruct (split_wav_file_fails_clean Examples.w_track "in.wav" "out" 0 1)
    as (_ & e & H & _); [right; left; reflexivity|].
  exists e. exact H.
Defined.

Lemma split_wav_file_negative_witness :
  exists w',
    VocalOnly.split_wav_file "in.wav" "out" (-1) 4 Examples.w_track
    = (Py.Return 4, w').
Proof.
  destruct (split_wav_file_negative Examples.w_track "in.wav" "out" Examples.track (-1) 4)
    as ((w' & H & _) & _); [reflexivity | lia | intros c; vm_compute; discriminate |].
  exists w'. exact H.
Defined.

Section ScanAndSplit.
Import Vocal.
Implicit Types w : world.
Implicit Types audio : AudioSegment.

Lemma glob_name_not_csv d mid :
  Path.join d ("vocal" +:+ mid +:+ ".wav") <> SplitSpec.csv_path d.
Proof.
  unfold SplitSpec.csv_path. intros H. apply join_inj in H; [|done..]. discriminate.
Qed.

Lemma glob_name_not_dir d mid : Path.join d ("vocal" +:+ mid +:+ ".wav") <> d.
Proof. apply join_neq_dir; done. Qed.

Lemma chunk_path_mid d start i mid :
  Path.join d ("vocal" +:+ mid +:+ ".wav") = SplitSpec.chunk_path d start i ->
  mid = Str.of_int (start + i).
Proof.
  unfold SplitSpec.chunk_path, Numbering.vocal_filename. intros H.
  apply join_inj in H; [|done..]. apply (inj (String.app _)) in H.
  by apply str_app_inv_tail in H.
Qed.

(** A scan after [n] chunks numbered from the scanned number on have been
    added, and no other matching name has changed, gives [n] more. *)
Lemma rescan {C} (m m' : gmap string (Fs.node C)) d n :
  let start := (Numbering.get_next_vocal_number d m).1 in
  is_Some (m !! d) -> is_Some (m' !! d) -> 0 <= n ->
  (forall i, 0 <= i < n -> is_Some (m' !! SplitSpec.chunk_path d start i)) ->
  (forall mid,
     (forall i, 0 <= i < n ->
        Path.join d ("vocal" +:+ mid +:+ ".wav") <> SplitSpec.chunk_path d start i) ->
     m' !! Path.join d ("vocal" +:+ mid +:+ ".wav")
     = m !! Path.join d ("vocal" +:+ mid +:+ ".wav")) ->
  (Numbering.get_next_vocal_number d m').1 = start + n.
Proof.
  intros start Hd Hd' Hn Hnew Hold. subst start.
  unfold Numbering.get_next_vocal_number, Fs.exists_ in *.
  rewrite !bool_decide_eq_true_2 in * by done. simpl in *.
  destruct (scanned_max m d) as (H0 & Hub & Hat).
  destruct (scanned_max m' d) as (H0' & Hub' & Hat').
  set (M := fold_left Numbering.scan_file (Fs.glob_vocal_wav m d) 0) in *.
  set (M' := fold_left Numbering.scan_file (Fs.glob_vocal_wav m' d) 0) in *.
  assert (M' <= M + n) as Hle.
  { destruct Hat' as [->|(mid & (Hne & Hsl & He) & Hv)]; [lia|].
    set (p := Path.join d ("vocal" +:+ mid +:+ ".wav")) in *.
    destruct (decide (0 <= M' - (M + 1) < n /\
                      p = SplitSpec.chunk_path d (M + 1) (M' - (M + 1)))) as [[? _]|Hno].
    { lia. }
    assert (forall i, 0 <= i < n -> p <> SplitSpec.chunk_path d (M + 1) i) as Hnot.
    { intros i Hi Heq. apply Hno.
      pose proof (chunk_path_mid _ _ _ _ Heq) as Hmid.
      rewrite Hmid, digits_value_of_int in Hv by lia.
      assert (M' = M + 1 + i) as HM by congruence.
      replace (M' - (M + 1)) with i by lia. done. }
    unfold p in *. rewrite (Hold mid Hnot) in He.
    pose proof (Hub mid M' (conj Hne (conj Hsl He)) Hv). lia. }
  assert (M + n <= M') as Hge.
  { destruct (decide (n = 0)) as [->|Hpos].
    - destruct Hat as [->|(mid & (Hne & Hsl & He) & Hv)]; [lia|].
      rewrite <-(Hold mid) in He by (intros; lia).
      pose proof (Hub' mid M (conj Hne (conj Hsl He)) Hv). lia.
    - pose proof (Hnew (n - 1) ltac:(lia)) as Hlast.
      apply present_below_max in Hlast; lia. }
  lia.
Qed.



End ScanAndSplit.



(** ** Formatted times *)

Section FormatTime.

Lemma digits_colon_split x y x' y' :
  Str.all_digits x = true -> Str.all_digits x' = true ->
  x +:+ ":" +:+ y = x' +:+ ":" +:+ y' -> x = x' /\ y = y'.
Proof.
  revert x'. induction x as [|a x IH]; intros [|b x'] Hx Hx' H;
    rewrite ?str_app_cons, ?str_app_nil_l in H.
  - by injection H as ->.
  - injection H as <- _. simpl in Hx'. discriminate.
  - injection H as -> _. simpl in Hx. discriminate.
  - injection H as -> H. simpl in Hx, Hx'.
    apply andb_prop in Hx as [_ Hx]. apply andb_prop in Hx' as [_ Hx'].
    destruct (IH x' Hx Hx' H) as [-> ->]. done.
Qed.

Lemma of_int_02_inj a b : 0 <= a -> 0 <= b -> Str.of_int_02 a = Str.of_int_02 b -> a = b.
Proof.
  intros Ha Hb H.
  destruct (of_int_02_nonneg a Ha) as (_ & <- & _).
  destruct (of_int_02_nonneg b Hb) as (_ & <- & _). by rewrite H.
Qed.

(** X7. [format_time] tells whole seconds apart and nothing finer: two
    non-negative times are formatted alike exactly when they fall in the
    same second, whatever the number of hours. *)
Theorem format_time_seconds a b :
  0 <= a -> 0 <= b ->
  VocalOnly1.format_time a = VocalOnly1.format_time b <-> a / 1000 = b / 1000.
Proof.
  intros Ha Hb. split; [|unfold VocalOnly1.format_time; by intros ->].
  unfold VocalOnly1.format_time.
  assert (0 <= a / 1000) as Hsa by (apply Z.div_pos; lia).
  assert (0 <= b / 1000) as Hsb by (apply Z.div_pos; lia).
  generalize dependent (a / 1000). generalize dependent (b / 1000).
  intros t Ht s Hs H.
  assert (0 <= s / 60) as Hms by (apply Z.div_pos; lia).
  assert (0 <= t / 60) as Hmt by (apply Z.div_pos; lia).
  assert (0 <= s / 60 / 60) as Hhs by (apply Z.div_pos; lia).
  assert (0 <= t / 60 / 60) as Hht by (apply Z.div_pos; lia).
  pose proof (Z.mod_pos_bound s 60 ltac:(lia)).
  pose proof (Z.mod_pos_bound t 60 ltac:(lia)).
  pose proof (Z.mod_pos_bound (s / 60) 60 ltac:(lia)).
  pose proof (Z.mod_pos_bound (t / 60) 60 ltac:(lia)).
  apply digits_colon_split in H as [Hh H];
    [|by apply of_int_02_nonneg..].
  apply digits_colon_split in H as [Hm Hsec];
    [|apply of_int_02_nonneg; lia..].
  apply of_int_02_inj in Hh; [|done..].
  apply of_int_02_inj in Hm; [|lia..].
  apply of_int_02_inj in Hsec; [|lia..].
  pose proof (Z.div_mod s 60 ltac:(lia)).
  pose proof (Z.div_mod t 60 ltac:(lia)).
  pose proof (Z.div_mod (s / 60) 60 ltac:(lia)).
  pose proof (Z.div_mod (t / 60) 60 ltac:(lia)).
  lia.
Qed.

End FormatTime.

Lemma format_time_seconds_witness :
  VocalOnly1.format_time 360000500 = VocalOnly1.format_time 360000999.
Proof. apply (format_time_seconds 360000500 360000999); [lia | lia | reflexivity]. Defined.

(** ** The driver over any three steps *)

Section DriverSteps.
Import Vocal DriverSpec.
Implicit Types w : world.

Variable download_audio : string -> string -> Py.M world string.
Variable extract_vocals : string -> string -> Py.M world string.
Variable split_wav_file : string -> string -> Z -> Z -> Py.M world Z.
Variable chunk_length_sec : Z.
Variables youtube_url split_output_dir : string.
Variable current_number : Z.

Let temp_dir := "temp_processing".
Let run := Driver.process_youtube_video download_audio extract_vocals split_wav_file
             chunk_length_sec youtube_url split_output_dir current_number.
Let body := Driver.process_body download_audio extract_vocals split_wav_file
              chunk_length_sec temp_dir youtube_url split_output_dir current_number.
Let fetch := download_audio youtube_url (Path.join temp_dir "audio").
Let separate (mp3 : string) := extract_vocals mp3 (Path.join temp_dir "vocals").
Let segment (wav : string) :=
  split_wav_file wav split_output_dir chunk_length_sec current_number.
Let before_fetch w1 :=
  printed [Str.newline +:+ "Processing URL: " +:+ youtube_url;
           "  Downloading audio from YouTube..."] w1.
Let before_separate w2 :=
  printed ["  Audio downloaded successfully."; "  Extracting vocals..."] w2.
Let before_segment (wav : string) w3 :=
  printed ["  Vocals extracted and saved to '" +:+ wav +:+ "'.";
           "  Splitting the WAV file into " +:+ Str.of_int chunk_length_sec
             +:+ "-second segments..."] w3.

Lemma steps_outcome w :
  run w =
    match body w with
    | (Py.Return n, w1) => (Py.Return n, cleaned temp_dir w1)
    | (Py.Raise e, w1) =>
        if Py.is_Exception e
        then (Py.Return current_number,
              cleaned temp_dir (printed [error_line youtube_url (Py.message e)] w1))
        else (Py.Raise e, cleaned temp_dir w1)
    end.
Proof.
  unfold run, Driver.process_youtube_video, Py.try_finally, Py.try_except.
  fold temp_dir. fold body.
  destruct (body w) as [[n|e] w1].
  - by rewrite clean_up_returns.
  - destruct (Py.is_Exception e).
    + unfold Py.bind. rewrite print_run. simpl. by rewrite clean_up_returns.
    + by rewrite clean_up_returns.
Qed.

Lemma steps_body w w1 :
  makedirs_exist_ok temp_dir w = (Py.Return tt, w1) ->
  body w =
    match fetch (before_fetch w1) with
    | (Py.Raise e, w2) => (Py.Raise e, w2)
    | (Py.Return mp3, w2) =>
        match separate mp3 (before_separate w2) with
        | (Py.Raise e, w3) => (Py.Raise e, w3)
        | (Py.Return wav, w3) =>
            match segment wav (before_segment wav w3) with
            | (Py.Raise e, w4) => (Py.Raise e, w4)
            | (Py.Return n, w4) =>
                (Py.Return n, printed ["  Splitting completed successfully."] w4)
            end
        end
    end.
Proof.
  intros Hmk. unfold body, Driver.process_body.
  erewrite bind_run; [|exact Hmk].
  erewrite bind_run; [|apply print_run].
  erewrite bind_run; [|apply print_run].
  rewrite printed_app. simpl app. fold fetch. fold (before_fetch w1).
  unfold Py.bind at 1. destruct (fetch (before_fetch w1)) as [[mp3|e] w2]; [|done].
  erewrite bind_run; [|apply print_run].
  erewrite bind_run; [|apply print_run].
  rewrite printed_app. simpl app. fold (separate mp3). fold (before_separate w2).
  unfold Py.bind at 1.
  destruct (separate mp3 (before_separate w2)) as [[wav|e] w3]; [|done].
  erewrite bind_run; [|apply print_run].
  erewrite bind_run; [|apply print_run].
  rewrite printed_app. simpl app. fold (segment wav). fold (before_segment wav w3).
  unfold Py.bind at 1.
  destruct (segment wav (before_segment wav w3)) as [[n|e] w4]; [|done].
  erewrite bind_run; [|apply print_run]. done.
Qed.

(** X8. [process_youtube_video] of either script, over whatever
    [download_audio], [extract_vocals] and [split_wav_file] it calls: when
    the three steps return, the driver returns the number that the splitter
    returned, and the world it leaves is the splitter's with the closing
    message printed and the scratch directory cleaned up. *)
Theorem process_youtube_video_success w w1 mp3 w2 wav w3 n w4 :
  makedirs_exist_ok temp_dir w = (Py.Return tt, w1) ->
  fetch (before_fetch w1) = (Py.Return mp3, w2) ->
  separate mp3 (before_separate w2) = (Py.Return wav, w3) ->
  segment wav (before_segment wav w3) = (Py.Return n, w4) ->
  run w = (Py.Return n,
           cleaned temp_dir (printed ["  Splitting completed successfully."] w4)).
Proof.
  intros Hmk Hf Hs Hg. rewrite steps_outcome, (steps_body w w1 Hmk), Hf, Hs, Hg. done.
Qed.


(** X10. An exception that is not an [Exception] (a keyboard interrupt, a
    [SystemExit]) raised by any of the three steps leaves the driver as it
    is: no error line is printed and no number is returned, but the scratch
    directory is still cleaned up first. *)
Theorem process_youtube_video_interrupt w w1 e :
  makedirs_exist_ok temp_dir w = (Py.Return tt, w1) ->
  Py.is_Exception e = false ->
  (forall w2, fetch (before_fetch w1) = (Py.Raise e, w2) ->
     run w = (Py.Raise e, cleaned temp_dir w2)) /\
  (forall mp3 w2 w3,
     fetch (before_fetch w1) = (Py.Return mp3, w2) ->
     separate mp3 (before_separate w2) = (Py.Raise e, w3) ->
     run w = (Py.Raise e, cleaned temp_dir w3)) /\
  (forall mp3 w2 wav w3 w4,
     fetch (before_fetch w1) = (Py.Return mp3, w2) ->
     separate mp3 (before_separate w2) = (Py.Return wav, w3) ->
     segment wav (before_segment wav w3) = (Py.Raise e, w4) ->
     run w = (Py.Raise e, cleaned temp_dir w4)).
Proof.
  intros Hmk He. pose proof (steps_body w w1 Hmk) as Hbody.
  split; [|split].
  - intros w2 Hf. rewrite Hf in Hbody. by rewrite steps_outcome, Hbody, He.
  - intros mp3 w2 w3 Hf Hs. rewrite Hf, Hs in Hbody.
    by rewrite steps_outcome, Hbody, He.
  - intros mp3 w2 wav w3 w4 Hf Hs Hg. rewrite Hf, Hs, Hg in Hbody.
    by rewrite steps_outcome, Hbody, He.
Qed.


End DriverSteps.

Lemma process_youtube_video_success_witness :
  exists w',
    Driver.process_youtube_video Scenarios.download_ready Scenarios.extract_ready
      Scenarios.split_one 30 "u" "out" 4 Examples.w_nothing
    = (Py.Return 5, w').
Proof.
  eexists.
  apply (process_youtube_video_success Scenarios.download_ready Scenarios.extract_ready
           Scenarios.split_one 30 "u" "out" 4 Examples.w_nothing
           _ _ _ _ _ _ _ eq_refl eq_refl eq_refl eq_refl).
Defined.


Lemma process_youtube_video_interrupt_witness :
  exists w',
    Driver.process_youtube_video Scenarios.download_interrupted Scenarios.extract_ready
      Scenarios.split_one 30 "u" "out" 4 Examples.w_nothing
    = (Py.Raise (Py.Exn false ""), w').
Proof.
  eexists.
  apply (proj1 (process_youtube_video_interrupt Scenarios.download_interrupted
                  Scenarios.extract_ready Scenarios.split_one 30 "u" "out" 4
                  Examples.w_nothing _ (Py.Exn false "") eq_refl eq_refl)
           _ eq_refl).
Defined.


(** ** The steps of the pipeline *)

Section StepFacts.
Import Vocal DriverSpec.
Implicit Types w : world.

Lemma exists_run p w : exists_ p w = (Py.Return (Fs.exists_ (fs w) p), w).
Proof. done. Qed.

Lemma exists_true {C} (m : gmap string (Fs.node C)) p :
  is_Some (m !! p) -> Fs.exists_ m p = true.
Proof. intros. by apply bool_decide_eq_true_2. Qed.

Lemma exists_false {C} (m : gmap string (Fs.node C)) p :
  m !! p = None -> Fs.exists_ m p = false.
Proof. intros H. apply bool_decide_eq_false_2. rewrite H. by intros [? ?]. Qed.

(** X12. [download_audio] returns only the path [downloaded_audio.mp3]
    of the directory it was given, and only when something is there after
    the download; when the downloader returns and nothing is there, it
    raises the error that names the path; and when the directory cannot be
    made the downloader is not called at all. *)
Theorem download_audio_result
    (ydl_download : string -> string -> Py.M world unit) youtube_url output_dir w :
  let downloaded_mp3 := Path.join output_dir "downloaded_audio.mp3" in
  (forall p w',
     download_audio ydl_download youtube_url output_dir w = (Py.Return p, w') ->
     p = downloaded_mp3 /\ is_Some (fs w' !! p)) /\
  (forall w1 w2,
     makedirs_exist_ok output_dir w = (Py.Return tt, w1) ->
     ydl_download youtube_url output_dir w1 = (Py.Return tt, w2) ->
     fs w2 !! downloaded_mp3 = None ->
     download_audio ydl_download youtube_url output_dir w
     = (Py.Raise (Py.Exn true (downloaded_mp3 +:+ " not found after download.")), w2)) /\
  (forall c, fs w !! output_dir = Some (Fs.File c) ->
     exists e, forall other : string -> string -> Py.M world unit,
       download_audio other youtube_url output_dir w = (Py.Raise e, w)).
Proof.
  intros downloaded_mp3. split; [|split].
  - intros p w'. unfold download_audio, Py.bind.
    destruct (makedirs_exist_ok output_dir w) as [[[]|e] w1]; [|done].
    destruct (ydl_download youtube_url output_dir w1) as [[[]|e] w2]; [|done].
    rewrite exists_run. fold downloaded_mp3.
    destruct (Fs.exists_ (fs w2) downloaded_mp3) eqn:E; [|done].
    intros [= <- <-]. split; [done|]. by apply bool_decide_eq_true in E.
  - intros w1 w2 Hmk Hydl Hno. unfold download_audio.
    erewrite bind_run; [|exact Hmk]. erewrite bind_run; [|exact Hydl].
    erewrite bind_run; [|apply exists_run]. fold downloaded_mp3.
    by rewrite exists_false.
  - intros c Hc. eexists. intros other.
    unfold download_audio, Py.bind, makedirs_exist_ok. rewrite Hc. reflexivity.
Qed.

(** X13. The two [extract_vocals]. After a separation that returns, both
    look for [vocals.wav] in the directory named after the input without
    its extension. If something is there both return that path and leave
    the world as the separation left it. If nothing is there both raise,
    but not the same error: [vocal_only.py] raises its "not found" error,
    [vocal_only1.py] raises the time-out of [wait_for_file], so that its own
    "not found" error is never raised. *)
Theorem extract_vocals_result
    (separate_to_file : string -> string -> Py.M world unit) input_audio output_dir w w1 :
  separate_to_file input_audio output_dir w = (Py.Return tt, w1) ->
  let vocals_wav_path :=
    Path.join (Path.join output_dir (Path.splitext (Path.basename input_audio)).1)
              "vocals.wav" in
  (is_Some (fs w1 !! vocals_wav_path) ->
   Vocal.extract_vocals separate_to_file input_audio output_dir w
     = (Py.Return vocals_wav_path, w1) /\
   VocalOnly.extract_vocals separate_to_file input_audio output_dir w
     = (Py.Return vocals_wav_path, w1)) /\
  (fs w1 !! vocals_wav_path = None ->
   Vocal.extract_vocals separate_to_file input_audio output_dir w
     = (Py.Raise (Py.Exn true ("File " +:+ vocals_wav_path
                               +:+ " not found within 30 seconds.")), w1) /\
   VocalOnly.extract_vocals separate_to_file input_audio output_dir w
     = (Py.Raise (Py.Exn true ("Vocals WAV file not found at " +:+ vocals_wav_path
                               +:+ ".")), w1)).
Proof.
  intros Hsep p. split.
  - intros Hp. split.
    + unfold Vocal.extract_vocals. erewrite bind_run; [|exact Hsep].
      change (construct_vocals_path input_audio output_dir) with p.
      unfold wait_for_file, Py.bind. rewrite exists_run, exists_true by done.
      unfold Py.ret. by rewrite exists_run, exists_true.
    + unfold VocalOnly.extract_vocals. erewrite bind_run; [|exact Hsep].
      fold p. unfold Py.bind. rewrite exists_run. by rewrite exists_true.
  - intros Hp. split.
    + unfold Vocal.extract_vocals. erewrite bind_run; [|exact Hsep].
      change (construct_vocals_path input_audio output_dir) with p.
      unfold wait_for_file, Py.bind. by rewrite exists_run, exists_false.
    + unfold VocalOnly.extract_vocals. erewrite bind_run; [|exact Hsep].
      fold p. unfold Py.bind. rewrite exists_run. by rewrite exists_false.
Qed.

Lemma splitext_mp3 : Path.splitext "downloaded_audio.mp3" = ("downloaded_audio", ".mp3").
Proof. vm_compute. reflexivity. Qed.

(** X14. Where the driver's two steps meet: for the file that
    [download_audio] returns, whatever its directory, the vocals are looked
    for at [downloaded_audio/vocals.wav] in the directory of the separation. *)
Theorem construct_vocals_path_downloaded (download_dir output_dir : string) :
  construct_vocals_path (Path.join download_dir "downloaded_audio.mp3") output_dir
  = Path.join (Path.join output_dir "downloaded_audio") "vocals.wav".
Proof.
  unfold construct_vocals_path. rewrite basename_join by done.
  by rewrite splitext_mp3.
Qed.

(** X15. [clean_up] on what is already clean: when the directory is not
    there the call does nothing and prints nothing, so a second
    [clean_up] after one that removed the directory changes nothing; and in
    every case a second call leaves the file system of the first. *)
Theorem clean_up_again temp_dir w :
  (fs w !! temp_dir = None -> clean_up temp_dir w = (Py.Return tt, w)) /\
  (fs w !! temp_dir = Some Fs.Dir ->
   clean_up temp_dir (cleaned temp_dir w) = (Py.Return tt, cleaned temp_dir w)) /\
  fs (cleaned temp_dir (cleaned temp_dir w)) = fs (cleaned temp_dir w).
Proof.
  assert (forall w0, fs w0 !! temp_dir = None ->
            clean_up temp_dir w0 = (Py.Return tt, w0)) as Hnone.
  { intros w0 H0. pose proof (clean_up_cases temp_dir w0) as H. by rewrite H0 in H. }
  assert (fs w !! temp_dir = Some Fs.Dir -> fs (cleaned temp_dir w) !! temp_dir = None)
    as Hgone.
  { intros Hd. destruct (cleaned_spec temp_dir w) as (_ & H & _).
    apply H; [done | by left]. }
  split; [by apply Hnone|]. split; [intros; by apply Hnone, Hgone|].
  destruct (fs w !! temp_dir) as [[|c]|] eqn:E.
  - unfold cleaned at 1. by rewrite (Hnone _ (Hgone eq_refl)).
  - assert (forall w0, fs w0 !! temp_dir = Some (Fs.File c) ->
              fs (cleaned temp_dir w0) = fs w0) as Hfile.
    { intros w0 H0. unfold cleaned. pose proof (clean_up_cases temp_dir w0) as H.
      rewrite H0 in H. by rewrite H. }
    rewrite (Hfile (cleaned temp_dir w)); [done|]. by rewrite (Hfile w E).
  - unfold cleaned. rewrite (Hnone w E). simpl. by rewrite (Hnone w E).
Qed.

End StepFacts.

Lemma download_audio_result_witness :
  Vocal.download_audio Scenarios.ydl_fetch "u" "dl" Examples.w_nothing
  = (Py.Return "dl/downloaded_audio.mp3",
     (Vocal.download_audio Scenarios.ydl_fetch "u" "dl" Examples.w_nothing).2) /\
  is_Some (Vocal.fs (Vocal.download_audio Scenarios.ydl_fetch "u" "dl" Examples.w_nothing).2
             !! "dl/downloaded_audio.mp3").
Proof.
  assert (Vocal.download_audio Scenarios.ydl_fetch "u" "dl" Examples.w_nothing
          = (Py.Return "dl/downloaded_audio.mp3",
             (Vocal.download_audio Scenarios.ydl_fetch "u" "dl" Examples.w_nothing).2))
    as Hrun by (vm_compute; reflexivity).
  split; [exact Hrun|].
  exact (proj2 (proj1 (download_audio_result Scenarios.ydl_fetch "u" "dl"
                         Examples.w_nothing) _ _ Hrun)).
Defined.

Lemma extract_vocals_result_witness :
  VocalOnly.extract_vocals Scenarios.separate_track "dl/downloaded_audio.mp3" "sep"
    Examples.w_nothing
  = (Py.Return "sep/downloaded_audio/vocals.wav",
     (Scenarios.separate_track "dl/downloaded_audio.mp3" "sep" Examples.w_nothing).2).
Proof.
  apply (proj1 (extract_vocals_result Scenarios.separate_track
                  "dl/downloaded_audio.mp3" "sep" Examples.w_nothing _ eq_refl)).
  vm_compute. eexists. reflexivity.
Defined.

Lemma clean_up_again_witness :
  Vocal.clean_up "temp_processing" Examples.w_nothing = (Py.Return tt, Examples.w_nothing).
Proof. apply (proj1 (clean_up_again "temp_processing" Examples.w_nothing)). reflexivity. Defined.

(** ** Whole runs *)

Section WholeRun.
Import Vocal DriverSpec PipelineSpec.
Implicit Types w : world.

Let temp_dir := "temp_processing".
Let audio_dir := Path.join temp_dir "audio".
Let vocals_dir := Path.join temp_dir "vocals".
Let mp3 := Path.join audio_dir "downloaded_audio.mp3".
Let wav := construct_vocals_path mp3 vocals_dir.

Lemma below_inside d p : below d p <-> p = d \/ inside d p.
Proof. done. Qed.

Lemma temp_not_inside : ~ inside temp_dir temp_dir.
Proof. vm_compute. by intros [? ?]. Qed.

Lemma audio_dir_inside : inside temp_dir audio_dir.
Proof. vm_compute. eauto. Qed.

(** A path that does not start with [t] is outside the scratch tree. *)
Lemma outside_temp a r : a <> "t"%char -> ~ below temp_dir (String a r).
Proof.
  intros Ha [H|[x H]].
  - injection H as -> _. done.
  - change (Path.dir_prefix temp_dir) with "temp_processing/" in H.
    simpl in H. by rewrite decide_False in H by congruence.
Qed.

Lemma join_first a r x :
  Str.startswith "/" x = false ->
  exists r', Path.join (String a r) x = String a r'.
Proof.
  intros Hx. rewrite join_relative by done. unfold Path.dir_prefix.
  destruct (bool_decide _ || _); rewrite ?str_app_cons; eauto.
Qed.

Lemma get_next_fs {C} d (m : gmap string (Fs.node C)) :
  (forall c, m !! d <> Some (Fs.File c)) ->
  (Numbering.get_next_vocal_number d m).2 !! d = Some Fs.Dir /\
  (forall p, p <> d ->
     (Numbering.get_next_vocal_number d m).2 !! p = m !! p).
Proof.
  intros Hd. unfold Numbering.get_next_vocal_number, Fs.exists_.
  destruct (m !! d) as [[|c]|] eqn:E.
  - rewrite bool_decide_eq_true_2 by eauto. simpl. done.
  - by destruct (Hd c).
  - rewrite bool_decide_eq_false_2 by (by intros [? ?]). simpl. unfold Fs.makedirs.
    split; [apply lookup_insert_eq|]. intros p Hp. by rewrite lookup_insert_ne.
Qed.

Section Run.
Variable ydl_download : string -> string -> Py.M world unit.
Variable separate_to_file : string -> string -> Py.M world unit.
Variable extract_vocals : string -> string -> Py.M world string.
Variable split_wav_file : string -> string -> Z -> Z -> Py.M world Z.
Variable chunk_length_sec : Z.
Variables youtube_url split_output_dir : string.
Variable current_number : Z.
Variable audio : AudioSegment.

(** [extract_vocals] is one of the two of the scripts. *)
Hypothesis Hextract :
  forall input_audio output_dir w w1,
    separate_to_file input_audio output_dir w = (Py.Return tt, w1) ->
    is_Some (fs w1 !! construct_vocals_path input_audio output_dir) ->
    extract_vocals input_audio output_dir w
    = (Py.Return (construct_vocals_path input_audio output_dir), w1).
Hypothesis Hydl : downloads temp_dir ydl_download youtube_url audio_dir.
Hypothesis Hsep : separates temp_dir separate_to_file audio mp3 vocals_dir.

(** The driver up to the splitter: the world in which the splitter
    starts, and the driver's result by what the splitter does there. *)
Lemma pipeline_run w :
  (forall p, below temp_dir p -> fs w !! p = None) ->
  exists wS,
    fs wS !! wav = Some (Fs.File (Wav audio)) /\
    fs wS !! temp_dir = Some Fs.Dir /\
    (forall p, ~ below temp_dir p -> fs wS !! p = fs w !! p) /\
    Driver.process_youtube_video (download_audio ydl_download) extract_vocals
      split_wav_file chunk_length_sec youtube_url split_output_dir current_number w
    = match split_wav_file wav split_output_dir chunk_length_sec current_number wS with
      | (Py.Return n, w4) =>
          (Py.Return n,
           cleaned temp_dir (printed ["  Splitting completed successfully."] w4))
      | (Py.Raise e, w4) =>
          if Py.is_Exception e
          then (Py.Return current_number,
                cleaned temp_dir (printed [error_line youtube_url (Py.message e)] w4))
          else (Py.Raise e, cleaned temp_dir w4)
      end.
Proof.
  intros Hclean.
  assert (fs w !! temp_dir = None) as Htemp by (apply Hclean; by left).
  assert (fs w !! audio_dir = None) as Haudio
    by (apply Hclean; right; apply audio_dir_inside).
  (* the scratch directory *)
  set (w1 := set_fs (fun m => Fs.makedirs m temp_dir) w).
  assert (makedirs_exist_ok temp_dir w = (Py.Return tt, w1)) as Hmk.
  { unfold makedirs_exist_ok. by rewrite Htemp. }
  (* the download *)
  set (wB := printed [Str.newline +:+ "Processing URL: " +:+ youtube_url;
                      "  Downloading audio from YouTube..."] w1).
  set (wB1 := set_fs (fun m => Fs.makedirs m audio_dir) wB).
  assert (makedirs_exist_ok audio_dir wB = (Py.Return tt, wB1)) as Hmk2.
  { unfold makedirs_exist_ok. simpl. unfold Fs.makedirs.
    rewrite lookup_insert_ne by done. by rewrite Haudio. }
  destruct (Hydl wB1) as (w2 & Hrun2 & Hmp3 & Hframe2).
  assert (download_audio ydl_download youtube_url audio_dir wB = (Py.Return mp3, w2))
    as Hfetch.
  { unfold download_audio.
    erewrite bind_run; [|exact Hmk2]. erewrite bind_run; [|exact Hrun2].
    erewrite bind_run; [|apply exists_run]. fold mp3. by rewrite exists_true. }
  (* the separation *)
  set (wC := printed ["  Audio downloaded successfully."; "  Extracting vocals..."] w2).
  destruct (Hsep wC) as (w3 & Hrun3 & Hwav & Hframe3).
  fold wav in Hwav.
  assert (extract_vocals mp3 vocals_dir wC = (Py.Return wav, w3)) as Hseparate.
  { apply Hextract; [done|]. fold wav. rewrite Hwav. eauto. }
  (* the world of the splitter *)
  set (wS := printed ["  Vocals extracted and saved to '" +:+ wav +:+ "'.";
                      "  Splitting the WAV file into " +:+ Str.of_int chunk_length_sec
                        +:+ "-second segments..."] w3).
  assert (forall p, ~ inside temp_dir p -> p <> temp_dir ->
            fs wS !! p = fs w !! p) as Hframe.
  { intros p Hp Hne. simpl. rewrite Hframe3, Hframe2 by done. simpl.
    unfold Fs.makedirs. rewrite !lookup_insert_ne; [done|congruence|].
    intros <-. apply Hp, audio_dir_inside. }
  exists wS. split; [done|]. split; [|split].
  - simpl. rewrite Hframe3, Hframe2 by apply temp_not_inside. simpl.
    unfold Fs.makedirs. rewrite lookup_insert_ne by done. apply lookup_insert_eq.
  - intros p Hp. apply Hframe; intros H; apply Hp; [by right | by left].
  - rewrite steps_outcome.
    rewrite (steps_body _ _ _ _ _ _ _ w w1 Hmk).
    fold temp_dir audio_dir vocals_dir. fold wB. rewrite Hfetch.
    fold wC. rewrite Hseparate. fold wS.
    destruct (split_wav_file wav split_output_dir chunk_length_sec current_number wS)
      as [[n|e] w4]; done.
Qed.

End Run.

Lemma extract_vocals1_found
    (separate_to_file : string -> string -> Py.M world unit) input_audio output_dir w w1 :
  separate_to_file input_audio output_dir w = (Py.Return tt, w1) ->
  is_Some (fs w1 !! construct_vocals_path input_audio output_dir) ->
  Vocal.extract_vocals separate_to_file input_audio output_dir w
  = (Py.Return (construct_vocals_path input_audio output_dir), w1).
Proof.
  intros Hsep Hp. unfold Vocal.extract_vocals. erewrite bind_run; [|exact Hsep].
  unfold wait_for_file, Py.bind. rewrite exists_run, exists_true by done.
  unfold Py.ret. by rewrite exists_run, exists_true.
Qed.

Lemma extract_vocals0_found
    (separate_to_file : string -> string -> Py.M world unit) input_audio output_dir w w1 :
  separate_to_file input_audio output_dir w = (Py.Return tt, w1) ->
  is_Some (fs w1 !! construct_vocals_path input_audio output_dir) ->
  VocalOnly.extract_vocals separate_to_file input_audio output_dir w
  = (Py.Return (construct_vocals_path input_audio output_dir), w1).
Proof.
  intros Hsep Hp. unfold VocalOnly.extract_vocals. erewrite bind_run; [|exact Hsep].
  unfold Py.bind. rewrite exists_run.
  change (Path.join (Path.join output_dir (Path.splitext (Path.basename input_audio)).1)
            "vocals.wav") with (construct_vocals_path input_audio output_dir).
  by rewrite exists_true.
Qed.

Lemma get_next_run d w :
  Driver.get_next_vocal_number d w
  = (Py.Return (Numbering.get_next_vocal_number d (fs w)).1,
     set_fs (fun _ => (Numbering.get_next_vocal_number d (fs w)).2) w).
Proof. done. Qed.

Lemma entry_outside a r x :
  a <> "t"%char -> Str.startswith "/" x = false ->
  ~ below temp_dir (Path.join (String a r) x).
Proof.
  intros Ha Hx. destruct (join_first a r x Hx) as [r' ->]. by apply outside_temp.
Qed.



(** X18. With a blank URL neither [main] goes further than its three
    lines: no directory is made, not even the output directory, and
    neither tool is called. *)
Theorem main_blank_url ydl_download separate_to_file w :
  let w' := printed ["Enter a YouTube video URL:"; "URL: ";
                     "No URL was entered. Exiting the program."] w in
  VocalOnly.main ydl_download separate_to_file "" w = (Py.Return tt, w') /\
  VocalOnly1.main ydl_download separate_to_file "" w = (Py.Return tt, w').
Proof.
  split.
  - unfold VocalOnly.main.
    erewrite bind_run; [|apply print_run]. erewrite bind_run; [|apply print_run].
    rewrite bool_decide_eq_true_2 by done. by rewrite print_run, !printed_app.
  - unfold VocalOnly1.main.
    erewrite bind_run; [|apply print_run]. erewrite bind_run; [|apply print_run].
    rewrite bool_decide_eq_true_2 by done. by rewrite print_run, !printed_app.
Qed.

Lemma driver_raises_no_Exception download_audio extract_vocals split_wav_file
    chunk_length_sec youtube_url split_output_dir current_number w e w' :
  Driver.process_youtube_video download_audio extract_vocals split_wav_file
    chunk_length_sec youtube_url split_output_dir current_number w = (Py.Raise e, w') ->
  Py.is_Exception e = false.
Proof.
  rewrite steps_outcome.
  match goal with |- context [Driver.process_body ?a ?b ?c ?d ?e ?f ?g ?h ?x] =>
    destruct (Driver.process_body a b c d e f g h x) as [[n|e0] w1] end; [done|].
  destruct (Py.is_Exception e0) eqn:E; [done|]. by intros [= <- <-].
Qed.

Lemma closing_lines (process : Py.M world Z) (closing : Py.M world unit) lines w r w' :
  (forall w0, closing w0 = (Py.Return tt, printed lines w0)) ->
  (forall e w1, process w = (Py.Raise e, w1) -> Py.is_Exception e = false) ->
  (_ <- process ;; closing) w = (r, w') ->
  match r with
  | Py.Return _ => exists pre, stdout w' = pre ++ lines
  | Py.Raise e => Py.is_Exception e = false
  end.
Proof.
  intros Hclosing Hraise. unfold Py.bind.
  destruct (process w) as [[n|e] w1] eqn:E.
  - rewrite Hclosing. intros [= <- <-]. by exists (stdout w1).
  - intros [= <- <-]. by apply (Hraise e w1).
Qed.


End WholeRun.

(** The tools of the examples do what a run needs of them. *)
Lemma ydl_fetch_downloads url d :
  PipelineSpec.inside "temp_processing" (Path.join d "downloaded_audio.mp3") ->
  PipelineSpec.downloads "temp_processing" Scenarios.ydl_fetch url d.
Proof.
  intros Hin w. eexists. split; [reflexivity|]. simpl. split.
  - rewrite lookup_insert_eq. eauto.
  - intros p Hp. apply lookup_insert_ne. by intros <-.
Qed.

Lemma separate_track_separates input_audio output_dir :
  PipelineSpec.inside "temp_processing"
    (Vocal.construct_vocals_path input_audio output_dir) ->
  PipelineSpec.separates "temp_processing" Scenarios.separate_track Examples.track
    input_audio output_dir.
Proof.
  intros Hin w. eexists. split; [reflexivity|]. simpl. split.
  - apply lookup_insert_eq.
  - intros p Hp. apply lookup_insert_ne. by intros <-.
Qed.

Lemma w_seven_clean p :
  DriverSpec.below "temp_processing" p -> Vocal.fs Scenarios.w_seven !! p = None.
Proof.
  intros Hp. unfold Scenarios.w_seven. simpl.
  rewrite !lookup_insert_ne; [apply lookup_empty | |];
    intros <-; revert Hp; by apply outside_temp.
Qed.

Lemma w_seven0_clean p :
  DriverSpec.below "temp_processing" p -> Vocal.fs Scenarios.w_seven0 !! p = None.
Proof.
  intros Hp. unfold Scenarios.w_seven0. simpl.
  rewrite !lookup_insert_ne; [apply lookup_empty | |];
    intros <-; revert Hp; by apply outside_temp.
Qed.




(** ** The sweep: refusals, skips, completion *)

Section SweepMore.
Import RemoveFile SweepSpec.
Variable abspath : string -> string.
Implicit Types w : world.

(** X20. [process_wav_files] stops before it touches anything in two
    cases. When the source is not a directory it prints the line saying so
    and exits with status 1, which is not an [Exception]; the final folder
    is not made. When the source is a directory but a file stands where the
    final folder goes, it raises an [Exception] with the world as it was. *)
Theorem process_wav_files_refuses walk source_directory min_duration
    final_folder_path w :
  (Fs.isdir (fs w) source_directory = false ->
   process_wav_files abspath walk source_directory min_duration final_folder_path w
   = (Py.Raise (Py.Exn false "1"),
      {| fs := fs w; stdout := stdout w ++ [NotADirectory source_directory] |})) /\
  (Fs.isdir (fs w) source_directory = true ->
   forall c, fs w !! final_folder_path = Some (Fs.File c) ->
   exists e,
     process_wav_files abspath walk source_directory min_duration final_folder_path w
     = (Py.Raise e, w) /\ Py.is_Exception e = true).
Proof.
  split.
  - intros Hd. unfold process_wav_files, Py.bind, Py.get. by rewrite Hd.
  - intros Hd c Hc. unfold process_wav_files, Py.bind, Py.get. rewrite Hd. simpl.
    rewrite Hc. eauto.
Qed.

(** X21. Once the source is a directory and no file stands where the
    final folder goes, the sweep runs to its end whatever it meets on the
    way: it returns, the last line printed is the closing report, and the
    counter has not gone below 1. *)
Theorem process_wav_files_completes walk source_directory min_duration
    final_folder_path w :
  Fs.isdir (fs w) source_directory = true ->
  (forall c, fs w !! final_folder_path <> Some (Fs.File c)) ->
  exists vocal_counter w' lines,
    process_wav_files abspath walk source_directory min_duration final_folder_path w
    = (Py.Return vocal_counter, w') /\
    1 <= vocal_counter /\
    stdout w' = lines ++ [OperationCompleted min_duration final_folder_path].
Proof.
  intros Hd Hfinal. unfold process_wav_files, Py.bind at 1, Py.get. rewrite Hd. simpl.
  unfold Py.bind at 1.
  destruct (fs w !! final_folder_path) as [[|c]|] eqn:E; [| by destruct (Hfinal c) |].
  - destruct (walk_preserves abspath min_duration final_folder_path walk 1 w)
      as (c' & w' & Hrun & Hc & _).
    erewrite bind_run; [|exact Hrun]. eexists _, _, _. split; [reflexivity|]. done.
  - set (w0 := set_fs _ w).
    destruct (walk_preserves abspath min_duration final_folder_path walk 1 w0)
      as (c' & w' & Hrun & Hc & _).
    erewrite bind_run; [|exact Hrun]. eexists _, _, _. split; [reflexivity|]. done.
Qed.

(** X22. What the sweep passes over. A folder whose absolute path is that
    of the final folder is skipped with all its files, and in any folder
    the files whose name, in lower case, does not end in [.wav] are passed
    over: in both cases the world and the counter are as before. *)
Theorem process_root_skips min_duration final_folder_path root files vocal_counter w :
  abspath root = abspath final_folder_path \/
  Forall (fun file => Str.endswith ".wav" (Str.lower file) = false) files ->
  process_root abspath min_duration final_folder_path (root, files) vocal_counter w
  = (Py.Return vocal_counter, w).
Proof.
  intros [Hsame|Hnone]; unfold process_root.
  - by rewrite bool_decide_eq_true_2.
  - destruct (bool_decide _); [done|].
    induction Hnone as [|file files Hfile _ IH]; [done|].
    erewrite for_each_cons; [exact IH|]. by rewrite Hfile.
Qed.

(** X23. [get_wav_duration] never raises and never changes a file. It
    returns a duration only for a file whose header gives a frame rate
    other than 0, the duration being frames over rate, and then prints
    nothing; in every other case it prints one line and returns [None]. *)
Theorem get_wav_duration_total filepath w :
  exists duration w',
    get_wav_duration filepath w = (Py.Return duration, w') /\
    fs w' = fs w /\
    match duration with
    | Some q =>
        w' = w /\
        exists frames rate,
          fs w !! filepath = Some (Fs.File (Wave frames (Npos rate))) /\
          q = (Z.of_N frames # rate)%Q
    | None => exists l, stdout w' = stdout w ++ [l]
    end.
Proof.
  unfold get_wav_duration, Py.bind, Py.get.
  destruct (fs w !! filepath) as [[|[e|e|frames [|rate]]]|] eqn:E; simpl;
    eexists _, _; (split; [reflexivity|]); simpl; eauto.
  split; [done|]. split; [done|]. by exists frames, rate.
Qed.

End SweepMore.

Lemma process_wav_files_refuses_witness :
  RemoveFile.process_wav_files id [] "nowhere" 30 "final" Examples.w_sweep
  = (Py.Raise (Py.Exn false "1"),
     {| RemoveFile.fs := RemoveFile.fs Examples.w_sweep;
        RemoveFile.stdout := [RemoveFile.NotADirectory "nowhere"] |}).
Proof.
  apply (proj1 (process_wav_files_refuses id [] "nowhere" 30 "final" Examples.w_sweep)).
  reflexivity.
Defined.

Lemma process_wav_files_completes_witness :
  exists vocal_counter w' lines,
    RemoveFile.process_wav_files id [("src", ["a.wav"])] "src" 30 "final" Examples.w_sweep
    = (Py.Return vocal_counter, w') /\
    1 <= vocal_counter /\
    RemoveFile.stdout w' = lines ++ [RemoveFile.OperationCompleted 30 "final"].
Proof.
  apply (process_wav_files_completes id [("src", ["a.wav"])] "src" 30 "final"
           Examples.w_sweep); [reflexivity | intros c; vm_compute; discriminate].
Defined.

Lemma process_root_skips_witness :
  RemoveFile.process_root id 30 "final" ("src", ["notes.txt"; "a.wav.bak"]) 1
    Examples.w_sweep
  = (Py.Return 1, Examples.w_sweep).
Proof.
  apply (process_root_skips id 30 "final" "src" ["notes.txt"; "a.wav.bak"] 1
           Examples.w_sweep).
  right. repeat constructor.
Defined.
